(** * opennx: the Nx Tracker 2 streaming session, embedded in Rocq

    The development follows the three Python files of the repository:

    - [src/opennx/nx.py]       (module [Nx]):     [parse_packet], [NxTracker];
    - [src/opennx/tracker.py]  (module [Tracker]): [parse_packet],
      [get_nx_tracker], [BleakRunner] with the battery channel;
    - [src/pynx/tracker.py]    (module [Pynx]):   the older [BleakRunner].

    Python values are modelled as follows: [int] is [Z], [bytes] and
    [bytearray] are [list byte], [float] is an IEEE-754 binary64 number
    ([spec_float] with precision 53, the executable specification of the
    Standard Library), [str] is [string], and a raised exception is the
    [Raise] constructor of [Result].  The BLE stack (bleak), the Tk
    callbacks and the OSC client are the environment: every call into them
    is recorded in a trace, and an oracle decides which of them raise. *)

From Stdlib Require Import ZArith QArith Lia SpecFloat.
From Stdlib Require Import Strings.Byte.
From stdpp Require Import base list strings.

Local Open Scope Z_scope.

(* ===================================================================== *)
(** * Python builtins used by the sources                                 *)
(* ===================================================================== *)

Module Py.

(** Python exceptions that the modelled code can raise. [ExternalError]
    stands for whatever a call into the environment raised (a
    [BleakError], a timeout, an error of a consumer callback); its
    argument is the position of the call in the trace. *)
Inductive Exn : Type :=
| StructError
| OverflowError
| ZeroDivisionError
| TypeError
| IndexError
| AttributeError
| RuntimeError (msg : string)
| ExternalError (at_call : nat).

Inductive Result (A : Type) : Type :=
| Ok (a : A)
| Raise (e : Exn).
Arguments Ok {A} a.
Arguments Raise {A} e.

Definition is_ok {A} (r : Result A) : bool :=
  match r with Ok _ => true | Raise _ => false end.

Definition rbind {A B} (r : Result A) (k : A -> Result B) : Result B :=
  match r with
  | Ok a => k a
  | Raise e => Raise e
  end.

(** A comprehension or generator whose body may raise: elements are
    evaluated left to right and the first exception ends it. *)
Fixpoint mapM_result {A B} (f : A -> Result B) (l : list A)
  : Result (list B) :=
  match l with
  | [] => Ok []
  | a :: l' => rbind (f a) (fun b =>
               rbind (mapM_result f l') (fun bs => Ok (b :: bs)))
  end.

(** ** bytes *)

Definition byte_val (b : byte) : Z := Z.of_N (Byte.to_N b).

Definition byte_of_Z (z : Z) : byte :=
  match Byte.of_N (Z.to_N (z mod 256)) with
  | Some b => b
  | None => x00
  end.

(** [int.from_bytes(data)]: the byte order defaults to ["big"] (Python
    3.11 and later) and the result is unsigned. *)
Definition int_from_bytes (data : list byte) : Z :=
  fold_left (fun acc b => acc * 256 + byte_val b) data 0.

(** Big-endian digits of [n], [len] of them. *)
Fixpoint be_digits (len : nat) (n : Z) : list byte :=
  match len with
  | O => []
  | S k => be_digits k (n / 256) ++ [byte_of_Z n]
  end.

(** [n.to_bytes(length)]: big-endian by default, unsigned;
    [OverflowError] for a negative [n] and for one that does not fit. *)
Definition to_bytes (n : Z) (len : nat) : Result (list byte) :=
  if n <? 0 then Raise OverflowError
  else if 256 ^ Z.of_nat len <=? n then Raise OverflowError
  else Ok (be_digits len n).

(** ** struct *)

(** One ["<h"] field: two bytes, least significant first, read as a
    16-bit two's complement number. *)
Definition int16_le (lo hi : byte) : Z :=
  let u := byte_val lo + 256 * byte_val hi in
  if u <? 32768 then u else u - 65536.

Fixpoint unpack_fields (n : nat) (data : list byte) : list Z :=
  match n, data with
  | S k, lo :: hi :: rest => int16_le lo hi :: unpack_fields k rest
  | _, _ => []
  end.

(** [struct.unpack("<5h", data)]: [struct.error] unless the buffer has
    exactly the size of the format, 10 bytes. *)
Definition struct_unpack_5h (data : list byte) : Result (list Z) :=
  if Nat.eqb (length data) 10 then Ok (unpack_fields 5 data)
  else Raise StructError.

Definition pack_h (v : Z) : list byte :=
  [byte_of_Z v; byte_of_Z ((v mod 65536) / 256)].

(** [struct.pack("<5h", *values)], the inverse the tests of the codec
    use: [struct.error] for a wrong number of values or one outside the
    int16 range. *)
Definition struct_pack_5h (values : list Z) : Result (list byte) :=
  if Nat.eqb (length values) 5
     && forallb (fun v => (-32768 <=? v) && (v <=? 32767)) values
  then Ok (flat_map pack_h values)
  else Raise StructError.

(** ** float *)

Definition float : Type := spec_float.
Definition prec : Z := 53.
Definition emax : Z := 1024.

(** [float(n)] for an integer [n]: rounded to nearest even,
    [OverflowError] when the integer is too large for a double. *)
Definition float_of_int (n : Z) : Result float :=
  match binary_normalize prec emax n 0 false with
  | S754_infinity _ => Raise OverflowError
  | f => Ok f
  end.

Definition float_is_zero (f : float) : bool :=
  match f with S754_zero _ => true | _ => false end.

(** [n / d] for an integer [n] and a float [d]: the integer is converted
    first, a zero divisor raises [ZeroDivisionError]. *)
Definition int_truediv_float (n : Z) (d : float) : Result float :=
  rbind (float_of_int n) (fun a =>
    if float_is_zero d then Raise ZeroDivisionError
    else Ok (SFdiv prec emax a d)).

(** The rational number a finite float denotes; [None] for infinities
    and NaN. *)
Definition float_value (f : float) : option Q :=
  match f with
  | S754_zero _ => Some 0%Q
  | S754_finite s m e =>
      let mag := if 0 <=? e then inject_Z (Z.pos m * 2 ^ e)
                 else (Z.pos m # Z.to_pos (2 ^ (- e)))%Q in
      Some (if s then (- mag)%Q else mag)
  | S754_infinity _ | S754_nan => None
  end.

End Py.
Export Py.

(* ===================================================================== *)
(** * nx.py: the packet codec                                             *)
(* ===================================================================== *)

Module Nx.

Definition DEVICE_NAME : string := "Nx Tracker 2".
Definition START_UUID : string := "0000a011-5761-7665-7341-7564696f4c74".
Definition STREAM_UUID : string := "0000a015-5761-7665-7341-7564696f4c74".

(** [class Quaternion(NamedTuple)] *)
Record Quaternion : Type := mkQuaternion {
  w : float;
  x : float;
  y : float;
  z : float
}.

(** [parse_packet]: [scale] is computed first, then the buffer is
    unpacked; the generator [q / scale for q in unpacked_data[:4]] is
    splatted into the [Quaternion] constructor, which takes exactly four
    arguments. Nothing is reordered or negated (the shuffle the comment
    of the source speculates about is not applied). *)
Definition parse_packet (data : list byte) : Result Quaternion :=
  rbind (float_of_int (Z.shiftl 1 14)) (fun scale =>
  rbind (struct_unpack_5h data) (fun unpacked_data =>
  rbind (mapM_result (fun q => int_truediv_float q scale)
           (take 4 unpacked_data)) (fun quat =>
  match quat with
  | [q0; q1; q2; q3] => Ok (mkQuaternion q0 q1 q2 q3)
  | _ => Raise TypeError
  end))).

End Nx.

(* ===================================================================== *)
(** * The environment: bleak, the consumer callbacks, the event loop      *)
(* ===================================================================== *)

Module Env.

(** [BLEDevice]: the advertised name may be missing. *)
Record BLEDevice : Type := mkDevice {
  name : option string;
  address : string
}.

(** The notification callbacks the sources register: the closures
    [_on_notify] of [NxTracker.start_stream], and [_on_notify] and
    [_batt_notify] of [BleakRunner.start_stream]. *)
Inductive Handler : Type :=
| NxOnNotify
| OnNotify
| BattNotify.

(** Calls that leave the modelled code: the bleak operations on the
    client object [c], then the consumer callbacks (the sinks):
    [on_update] of [NxTracker], and [update_cb], [osc_client.send_message]
    and [update_batt] of [BleakRunner]. *)
Inductive Call : Type :=
| Discover
| Connect (c : nat)
| WriteGattChar (c : nat) (uuid : string) (data : list byte)
| ReadGattChar (c : nat) (uuid : string)
| StartNotify (c : nat) (uuid : string) (h : Handler)
| StopNotify (c : nat) (uuid : string)
| Disconnect (c : nat)
| OnUpdate (quat : Nx.Quaternion)
| Update (quat : list float)
| SendMessage (osc_address : string) (args : list float)
| BattUpdate (batt : Z).

(** What the environment will do, as a function of the calls made so
    far: whether the next call raises, what a scan finds and what a
    characteristic read returns. *)
Record Oracle : Type := mkOracle {
  raises : list Call -> Call -> bool;
  scan_result : list Call -> list BLEDevice;
  gatt_value : list Call -> list byte
}.

(** A [BleakClient] object. *)
Record Client : Type := mkClient {
  is_connected : bool;
  callbacks : list (string * Handler)
}.

(** The part of the world the code acts on: the client objects (a
    reference to one is its index), every call made so far (oldest
    first), what was printed, and the outcome of every coroutine handed
    to the event loop. *)
Record World : Type := mkWorld {
  clients : list Client;
  trace : list Call;
  stdout : list string;
  futures : list (Result unit)
}.

Definition empty_world : World := mkWorld [] [] [] [].

Definition set_clients (cs : list Client) (w : World) : World :=
  mkWorld cs (trace w) (stdout w) (futures w).
Definition log_call (op : Call) (w : World) : World :=
  mkWorld (clients w) (trace w ++ [op]) (stdout w) (futures w).
Definition log_print (s : string) (w : World) : World :=
  mkWorld (clients w) (trace w) (stdout w ++ [s]) (futures w).
Definition log_future (r : Result unit) (w : World) : World :=
  mkWorld (clients w) (trace w) (stdout w) (futures w ++ [r]).

(** ** The monad of the modelled code

    A computation reads the oracle, threads a state [S] and ends in a
    value or in an exception; the state reached when an exception is
    raised is kept, as in Python. *)
Definition M (S A : Type) : Type := Oracle -> S -> Result A * S.

Definition ret {S A} (a : A) : M S A := fun _ s => (Ok a, s).
Definition raise {S A} (e : Exn) : M S A := fun _ s => (Raise e, s).
Definition bind {S A B} (m : M S A) (k : A -> M S B) : M S B :=
  fun o s =>
    match m o s with
    | (Ok a, s') => k a o s'
    | (Raise e, s') => (Raise e, s')
    end.
Definition pure {S A} (r : Result A) : M S A := fun _ s => (r, s).
Definition get {S} : M S S := fun _ s => (Ok s, s).
Definition modify {S} (f : S -> S) : M S unit := fun _ s => (Ok tt, f s).

(** A method of an object [Self] runs on the pair of the object and the
    world; [in_world] runs a computation that only touches the world. *)
Definition in_world {Self A} (m : M World A) : M (Self * World) A :=
  fun o '(self, w) => let '(r, w') := m o w in (r, (self, w')).
Definition get_self {Self} : M (Self * World) Self :=
  fun _ '(self, w) => (Ok self, (self, w)).
Definition modify_self {Self} (f : Self -> Self) : M (Self * World) unit :=
  fun _ '(self, w) => (Ok tt, (f self, w)).

End Env.
Export Env.

Declare Scope py_scope.
Delimit Scope py_scope with py.
Notation "x <- m ;; k" := (bind m (fun x => k))
  (at level 100, m at next level, right associativity) : py_scope.
Notation "m ;; k" := (bind m (fun _ => k))
  (at level 100, right associativity) : py_scope.
Local Open Scope py_scope.

Module Bleak.

(** A call into the environment: it is recorded, and the oracle says
    whether it raises. *)
Definition call (op : Call) : M World unit :=
  fun o w =>
    let w' := log_call op w in
    if raises o (trace w) op
    then (Raise (ExternalError (length (trace w))), w')
    else (Ok tt, w').

Definition update_client (c : nat) (f : Client -> Client) : M World unit :=
  modify (fun w => set_clients (alter f c (clients w)) w).

(** [BleakClient(address_or_device, ...)]: a new, unconnected client. *)
Definition BleakClient : M World nat :=
  fun _ w => (Ok (length (clients w)),
              set_clients (clients w ++ [mkClient false []]) w).

(** [await BleakScanner().discover()] *)
Definition discover : M World (list BLEDevice) :=
  fun o w =>
    match call Discover o w with
    | (Ok _, w') => (Ok (scan_result o (trace w)), w')
    | (Raise e, w') => (Raise e, w')
    end.

Definition connect (c : nat) : M World unit :=
  call (Connect c) ;;
  update_client c (fun cl => mkClient true (callbacks cl)).

Definition write_gatt_char (c : nat) (uuid : string) (data : list byte)
  : M World unit :=
  call (WriteGattChar c uuid data).

Definition read_gatt_char (c : nat) (uuid : string) : M World (list byte) :=
  fun o w =>
    match call (ReadGattChar c uuid) o w with
    | (Ok _, w') => (Ok (gatt_value o (trace w)), w')
    | (Raise e, w') => (Raise e, w')
    end.

Definition start_notify (c : nat) (uuid : string) (h : Handler)
  : M World unit :=
  call (StartNotify c uuid h) ;;
  update_client c (fun cl =>
    mkClient (is_connected cl) ((uuid, h) :: callbacks cl)).

Definition stop_notify (c : nat) (uuid : string) : M World unit :=
  call (StopNotify c uuid) ;;
  update_client c (fun cl =>
    mkClient (is_connected cl)
      (List.filter (fun p => negb (String.eqb (fst p) uuid)) (callbacks cl))).

(** A disconnect drops the link and every subscription on it. *)
Definition disconnect (c : nat) : M World unit :=
  call (Disconnect c) ;;
  update_client c (fun _ => mkClient false []).

(** [print(s)] *)
Definition print (s : string) : M World unit :=
  modify (log_print s).

(** [asyncio.run_coroutine_threadsafe(coro, loop)]: the loop thread runs
    the coroutine; an exception it raises is stored in the returned
    future, which the sources drop. Coroutines handed to the loop are
    taken to run one after the other, each to its end. *)
Definition run_coroutine_threadsafe {Self} (coro : M (Self * World) unit)
  : M (Self * World) unit :=
  fun o s =>
    let '(r, (self, w)) := coro o s in
    (Ok tt, (self, log_future r w)).

End Bleak.
Import Bleak.

(* ===================================================================== *)
(** * nx.py: class NxTracker                                              *)
(* ===================================================================== *)

Module NxTracker.

(** The object: [self._running] and [self.client]. [self._update] is the
    callback [on_update], a call [OnUpdate] into the environment. *)
Record t : Type := mkNxTracker {
  _running : bool;
  client : nat
}.

Definition set_running (b : bool) (self : t) : t :=
  mkNxTracker b (client self).

(** [__init__]: the client object is created here, once. *)
Definition init : M World t :=
  c <- BleakClient ;;
  ret (mkNxTracker false c).

(** The closure [_on_notify] of [start_stream]. *)
Definition _on_notify (data : list byte) : M World unit :=
  quat <- pure (Nx.parse_packet data) ;;
  call (OnUpdate quat).

Definition start_stream (rate : Z) : M (t * World) unit :=
  self <- get_self ;;
  if _running self then ret tt
  else
    modify_self (set_running true) ;;
    in_world (connect (client self)) ;;
    payload <- pure (to_bytes rate 1) ;;
    in_world (write_gatt_char (client self) Nx.START_UUID payload) ;;
    in_world (start_notify (client self) Nx.STREAM_UUID NxOnNotify).

Definition stop_stream : M (t * World) unit :=
  self <- get_self ;;
  if negb (_running self) then ret tt
  else
    modify_self (set_running false) ;;
    in_world (write_gatt_char (client self) Nx.START_UUID [x00]) ;;
    in_world (stop_notify (client self) Nx.STREAM_UUID) ;;
    in_world (disconnect (client self)).

Definition shutdown : M (t * World) unit :=
  self <- get_self ;;
  stop_stream ;;
  in_world (disconnect (client self)).

End NxTracker.

(* ===================================================================== *)
(** * opennx/tracker.py                                                   *)
(* ===================================================================== *)

Module Tracker.

Definition DEVICE_NAME : string := "Nx Tracker 2".
Definition START_UUID : string := "0000a011-5761-7665-7341-7564696f4c74".
Definition STREAM_UUID : string := "0000a015-5761-7665-7341-7564696f4c74".
Definition BATTERY_UUID : string := "00002a19-0000-1000-8000-00805f9b34fb".
Definition RESET : string := "0000a011-5761-7665-7341-7564696f4c74".

(** [parse_packet]: the five fields are unpacked into
    [q0, q1, q2, q3, _] before [scale] is computed, and the result is a
    list of four floats. *)
Definition parse_packet (data : list byte) : Result (list float) :=
  rbind (struct_unpack_5h data) (fun fields =>
  match fields with
  | [q0; q1; q2; q3; _] =>
      rbind (float_of_int (Z.shiftl 1 14)) (fun scale =>
      rbind (int_truediv_float q0 scale) (fun f0 =>
      rbind (int_truediv_float q1 scale) (fun f1 =>
      rbind (int_truediv_float q2 scale) (fun f2 =>
      rbind (int_truediv_float q3 scale) (fun f3 =>
      Ok [f0; f1; f2; f3])))))
  | _ => Raise TypeError
  end).

(** [dev.name == DEVICE_NAME]; a device without a name never matches. *)
Definition name_is (expected : string) (dev : BLEDevice) : bool :=
  match name dev with
  | Some n => String.eqb n expected
  | None => false
  end.

(** [get_nx_tracker]. The walrus [n := len(nxs) > 1] binds [n] to the
    comparison, so the warning prints [n=True]. *)
Definition get_nx_tracker : M World string :=
  devices <- discover ;;
  let nxs := List.filter (name_is DEVICE_NAME) devices in
  if Nat.eqb (length nxs) 0
  then raise (RuntimeError "No Nx Tracker 2 devices were found!")
  else
    (if Nat.ltb 1 (length nxs)
     then print "WARNING: Multiple Nx Tracker 2 devices were found! (n=True)"
     else ret tt) ;;
    match nxs with
    | dev :: _ => ret (address dev)
    | [] => raise IndexError
    end.

End Tracker.

(** [class BleakRunner(threading.Thread)] of opennx/tracker.py. *)
Module BleakRunner.

Import Tracker.

(** The object: [self.address], [self._running] and [self.client], which
    the class only declares: it is unset until [_go] assigns it.
    [self._update], [self._batt_update] and [self.osc_client] are calls
    into the environment. *)
Record t : Type := mkBleakRunner {
  address : string;
  _running : bool;
  client : option nat
}.

Definition init (address : string) : t := mkBleakRunner address false None.

Definition set_address (a : string) (self : t) : t :=
  mkBleakRunner a (_running self) (client self).
Definition set_running (b : bool) (self : t) : t :=
  mkBleakRunner (address self) b (client self).
Definition set_client (c : nat) (self : t) : t :=
  mkBleakRunner (address self) (_running self) (Some c).

(** Reading [self.client]: [AttributeError] while it is unset. *)
Definition get_client : M (t * World) nat :=
  self <- get_self ;;
  match client self with
  | Some c => ret c
  | None => raise AttributeError
  end.

(** The closure [_on_notify]: the Tk label first, then the OSC message. *)
Definition _on_notify (data : list byte) : M World unit :=
  quat <- pure (parse_packet data) ;;
  call (Update quat) ;;
  call (SendMessage "/quat" quat).

(** The closure [_batt_notify]. *)
Definition _batt_notify (data : list byte) : M World unit :=
  let batt := int_from_bytes data in
  call (BattUpdate batt).

Definition _go : M (t * World) unit :=
  self <- get_self ;;
  (if String.eqb (address self) ""
   then a <- in_world get_nx_tracker ;; modify_self (set_address a)
   else ret tt) ;;
  c <- in_world BleakClient ;;
  modify_self (set_client c) ;;
  c <- get_client ;; in_world (connect c) ;;
  c <- get_client ;; in_world (write_gatt_char c START_UUID [xff]) ;;
  c <- get_client ;; in_world (start_notify c STREAM_UUID OnNotify) ;;
  c <- get_client ;; in_world (start_notify c BATTERY_UUID BattNotify) ;;
  c <- get_client ;;
  data <- in_world (read_gatt_char c BATTERY_UUID) ;;
  in_world (call (BattUpdate (int_from_bytes data))).

Definition start_stream : M (t * World) unit :=
  self <- get_self ;;
  if _running self then ret tt
  else
    modify_self (set_running true) ;;
    run_coroutine_threadsafe _go.

Definition _stop : M (t * World) unit :=
  c <- get_client ;; in_world (write_gatt_char c START_UUID [x00]) ;;
  c <- get_client ;; in_world (stop_notify c STREAM_UUID) ;;
  c <- get_client ;; in_world (disconnect c).

Definition stop_stream : M (t * World) unit :=
  self <- get_self ;;
  if negb (_running self) then ret tt
  else
    modify_self (set_running false) ;;
    run_coroutine_threadsafe _stop.

Definition _reset : M (t * World) unit :=
  c <- get_client ;;
  in_world (write_gatt_char c RESET [x32; x00; x00; x00; x00]) ;;
  c <- get_client ;;
  in_world (write_gatt_char c RESET [x32; x00; x00; x00; x01]).

Definition reset : M (t * World) unit :=
  run_coroutine_threadsafe _reset.

End BleakRunner.

(* ===================================================================== *)
(** * pynx/tracker.py                                                     *)
(* ===================================================================== *)

(** The older variant: the same [parse_packet], [get_nx_tracker] and
    [_on_notify], no battery channel and no reset. *)
Module Pynx.

Definition DEVICE_NAME : string := "Nx Tracker 2".
Definition START_UUID : string := "0000a011-5761-7665-7341-7564696f4c74".
Definition STREAM_UUID : string := "0000a015-5761-7665-7341-7564696f4c74".

Definition parse_packet (data : list byte) : Result (list float) :=
  rbind (struct_unpack_5h data) (fun fields =>
  match fields with
  | [q0; q1; q2; q3; _] =>
      rbind (float_of_int (Z.shiftl 1 14)) (fun scale =>
      rbind (int_truediv_float q0 scale) (fun f0 =>
      rbind (int_truediv_float q1 scale) (fun f1 =>
      rbind (int_truediv_float q2 scale) (fun f2 =>
      rbind (int_truediv_float q3 scale) (fun f3 =>
      Ok [f0; f1; f2; f3])))))
  | _ => Raise TypeError
  end).

Definition get_nx_tracker : M World string :=
  devices <- discover ;;
  let nxs := List.filter (Tracker.name_is DEVICE_NAME) devices in
  if Nat.eqb (length nxs) 0
  then raise (RuntimeError "No Nx Tracker 2 devices were found!")
  else
    (if Nat.ltb 1 (length nxs)
     then print "WARNING: Multiple Nx Tracker 2 devices were found! (n=True)"
     else ret tt) ;;
    match nxs with
    | dev :: _ => ret (Env.address dev)
    | [] => raise IndexError
    end.

Record t : Type := mkBleakRunner {
  address : string;
  _running : bool;
  client : option nat
}.

Definition init (address : string) : t := mkBleakRunner address false None.

Definition set_address (a : string) (self : t) : t :=
  mkBleakRunner a (_running self) (client self).
Definition set_running (b : bool) (self : t) : t :=
  mkBleakRunner (address self) b (client self).
Definition set_client (c : nat) (self : t) : t :=
  mkBleakRunner (address self) (_running self) (Some c).

Definition get_client : M (t * World) nat :=
  self <- get_self ;;
  match client self with
  | Some c => ret c
  | None => raise AttributeError
  end.

Definition _on_notify (data : list byte) : M World unit :=
  quat <- pure (parse_packet data) ;;
  call (Update quat) ;;
  call (SendMessage "/quat" quat).

Definition _go : M (t * World) unit :=
  self <- get_self ;;
  (if String.eqb (address self) ""
   then a <- in_world get_nx_tracker ;; modify_self (set_address a)
   else ret tt) ;;
  c <- in_world BleakClient ;;
  modify_self (set_client c) ;;
  c <- get_client ;; in_world (connect c) ;;
  c <- get_client ;; in_world (write_gatt_char c START_UUID [xff]) ;;
  c <- get_client ;; in_world (start_notify c STREAM_UUID OnNotify).

Definition start_stream : M (t * World) unit :=
  self <- get_self ;;
  if _running self then ret tt
  else
    modify_self (set_running true) ;;
    run_coroutine_threadsafe _go.

Definition _stop : M (t * World) unit :=
  c <- get_client ;; in_world (write_gatt_char c START_UUID [x00]) ;;
  c <- get_client ;; in_world (stop_notify c STREAM_UUID) ;;
  c <- get_client ;; in_world (disconnect c).

Definition stop_stream : M (t * World) unit :=
  self <- get_self ;;
  if negb (_running self) then ret tt
  else
    modify_self (set_running false) ;;
    run_coroutine_threadsafe _stop.

End Pynx.

(* ===================================================================== *)
(** * nx.py: discovery                                                    *)
(* ===================================================================== *)

Module NxScan.


End NxScan.

(* ===================================================================== *)
(** * opennx/tracker.py: class Window                                     *)
(* ===================================================================== *)

(** The part of [Window(tk.Tk)] that drives the session: the runner
    [self.ble], the flag [self._streaming] and the text of the button
    [self.btn], which [btn.config(text=...)] sets. The methods
    [update_quat] and [update_batt] are the calls [Update] and
    [BattUpdate] of the environment. *)
Module Window.

Record t : Type := mkWindow {
  ble : BleakRunner.t;
  _streaming : bool;
  btn_text : string
}.

(** [__init__] with the given address: the button reads "Start". *)
Definition init (address : string) : t :=
  mkWindow (BleakRunner.init address) false "Start".

Definition set_ble (b : BleakRunner.t) (self : t) : t :=
  mkWindow b (_streaming self) (btn_text self).
Definition set_streaming (b : bool) (self : t) : t :=
  mkWindow (ble self) b (btn_text self).
Definition btn_config (text : string) (self : t) : t :=
  mkWindow (ble self) (_streaming self) text.

(** A call of a method of [self.ble]. *)
Definition on_ble {A} (m : M (BleakRunner.t * World) A) : M (t * World) A :=
  fun o '(self, w) =>
    let '(r, (b, w')) := m o (ble self, w) in (r, (set_ble b self, w')).

Definition reset : M (t * World) unit :=
  on_ble BleakRunner.reset.

Definition toggle_stream : M (t * World) unit :=
  self <- get_self ;;
  if negb (_streaming self)
  then
    on_ble BleakRunner.start_stream ;;
    modify_self (btn_config "Stop") ;;
    modify_self (set_streaming true)
  else
    on_ble BleakRunner.stop_stream ;;
    modify_self (btn_config "Start") ;;
    modify_self (set_streaming false).

End Window.

(* ===================================================================== *)
(** * Vocabulary of the statements                                        *)
(* ===================================================================== *)

(** ** The codec *)

(** The float [f] is finite and denotes exactly the rational [q]. *)
Definition has_value (f : float) (q : Q) : bool :=
  match float_value f with
  | Some v => Qeq_bool v q
  | None => false
  end.

(** The float [f] is finite and lies in the half-open interval [-2, 2). *)
Definition in_quat_range (f : float) : bool :=
  match float_value f with
  | Some v => Qle_bool (-2) v && negb (Qle_bool 2 v)
  | None => false
  end.

Definition is_int16 (v : Z) : Prop := -32768 <= v <= 32767.

(** The double 16384.0. *)
Definition scale14 : float := S754_finite false 4503599627370496 (-38).

(** Dividing the integer [v] by 16384.0 raises nothing and gives exactly
    the rational [v / 16384], which lies in [-2, 2). *)
Definition scaled_exactly (v : Z) : bool :=
  match int_truediv_float v scale14 with
  | Ok f => has_value f (v # 16384) && in_quat_range f
  | Raise _ => false
  end.

(** The components of [q] are the four integers over 16384, in the order
    w, x, y, z. *)
Definition quat_is (q : Nx.Quaternion) (v0 v1 v2 v3 : Z) : bool :=
  has_value (Nx.w q) (v0 # 16384) && has_value (Nx.x q) (v1 # 16384)
  && has_value (Nx.y q) (v2 # 16384) && has_value (Nx.z q) (v3 # 16384).

Definition quat_in_range (q : Nx.Quaternion) : bool :=
  in_quat_range (Nx.w q) && in_quat_range (Nx.x q)
  && in_quat_range (Nx.y q) && in_quat_range (Nx.z q).

(** [check] holds of the [n] consecutive integers from [lo] on. *)
Fixpoint all_from (check : Z -> bool) (lo : Z) (n : nat) : bool :=
  match n with
  | O => true
  | S k => check lo && all_from check (lo + 1) k
  end.

(** ** The session *)

(** The calls made between the world [w] and the later world [w']. *)
Definition calls_since (w w' : World) : list Call :=
  drop (length (trace w)) (trace w').

(** The calls that give something up: an unsubscription, a disconnect. *)
Definition is_release (op : Call) : bool :=
  match op with
  | Disconnect _ | StopNotify _ _ => true
  | _ => false
  end.

(** Every run of [m] relates the state it starts in to the state it ends
    in by [R], whether it returns or raises. *)
Definition preserves {S A : Type} (R : S -> S -> Prop) (m : M S A) : Prop :=
  forall o s, R s (snd (m o s)).

(** The calls of a step extend the trace, none of them gives up a
    subscription or the connection, and the step hands nothing to the
    event loop. *)
Definition no_release (w w' : World) : Prop :=
  futures w' = futures w
  /\ exists l, trace w' = trace w ++ l
               /\ forallb (fun op => negb (is_release op)) l = true.

(** The same for a step of a [BleakRunner] method, which in addition
    leaves [_running] as it is. *)
Definition runner_step (s s' : BleakRunner.t * World) : Prop :=
  BleakRunner._running (fst s') = BleakRunner._running (fst s)
  /\ no_release (snd s) (snd s').

(** ** Concrete environments and inputs *)

(** No call raises; a scan finds [devs], the battery characteristic reads
    [batt]. *)
Definition calm (devs : list BLEDevice) (batt : list byte) : Oracle :=
  mkOracle (fun _ _ => false) (fun _ => devs) (fun _ => batt).

(** Only the call number [n] (from 0) raises. *)
Definition failing_at (n : nat) (devs : list BLEDevice) (batt : list byte)
  : Oracle :=
  mkOracle (fun tr _ => Nat.eqb (length tr) n) (fun _ => devs) (fun _ => batt).

(** The Tk callback [update_cb] raises, nothing else does. *)
Definition ui_sink_raises : Oracle :=
  mkOracle (fun _ op => match op with Update _ => true | _ => false end)
           (fun _ => []) (fun _ => []).

Definition nx_device (addr : string) : BLEDevice :=
  mkDevice (Some "Nx Tracker 2") addr.

(** One tracker in range, its battery at 100. *)
Definition one_tracker : Oracle := calm [nx_device "00:00:00:00:00:01"] [x64].

(** Two trackers among four scan results. *)
Definition scenario_scan : list BLEDevice :=
  [mkDevice (Some "Other") "00:00:00:00:00:0A";
   nx_device "00:00:00:00:00:01";
   mkDevice None "00:00:00:00:00:0B";
   nx_device "00:00:00:00:00:02"].

Definition multiple_warning : string :=
  "WARNING: Multiple Nx Tracker 2 devices were found! (n=True)".

(** A fresh [NxTracker] and the world that holds its client. *)
Definition nx0 : NxTracker.t := NxTracker.mkNxTracker false 0.
Definition one_client : World := mkWorld [mkClient false []] [] [] [].

(** The packet of the int16 values 0, 0, 16384, 0, 10 and what it decodes
    to. *)
Definition scenario_packet : list byte :=
  [x00; x00; x00; x00; x00; x40; x00; x00; x0a; x00].
Definition scenario_quat : list float :=
  [S754_zero false; S754_zero false;
   S754_finite false 4503599627370496 (-52); S754_zero false].

(** The packet of the int16 values -32768, 32767, 0, 1, 10. *)
Definition extreme_packet : list byte :=
  [x00; x80; xff; x7f; x00; x00; x01; x00; x0a; x00].

(** ** The window *)

(** The flag of the window agrees with the flag of its runner, and the
    button offers the opposite action. *)
Definition window_ok (win : Window.t) : Prop :=
  Window._streaming win = BleakRunner._running (Window.ble win)
  /\ Window.btn_text win
     = (if Window._streaming win then "Stop" else "Start")%string.

(** An [NxTracker] that is streaming, and the world its [start_stream]
    left behind. *)
Definition nx_streaming : NxTracker.t := NxTracker.mkNxTracker true 0.
Definition one_client_streaming : World :=
  mkWorld [mkClient true [(Nx.STREAM_UUID, NxOnNotify)]]
    [Connect 0; WriteGattChar 0 Nx.START_UUID [xff];
     StartNotify 0 Nx.STREAM_UUID NxOnNotify] [] [].

(** ** Tactics *)

Ltac unfold_monad :=
  unfold bind, ret, raise, pure, get, modify, get_self, modify_self, in_world,
    call, update_client, run_coroutine_threadsafe in *.

(** Case analysis on the oracle's answer to the next call. *)
Ltac step_oracle :=
  match goal with
  | |- context [if raises ?o ?t ?op then _ else _] =>
      let E := fresh "Hraise" in destruct (raises o t op) eqn:E; cbn
  end.

(* ===================================================================== *)
(** * Facts about the Python builtins                                     *)
(* ===================================================================== *)

Section Bytes.

Lemma byte_val_range (b : byte) : 0 <= byte_val b < 256.
Proof.
  unfold byte_val. pose proof (Byte.to_N_bounded b). lia.
Qed.

Lemma byte_val_of_Z (v : Z) : byte_val (byte_of_Z v) = v mod 256.
Proof.
  unfold byte_val, byte_of_Z.
  pose proof (Z.mod_pos_bound v 256 ltac:(lia)) as Hm.
  destruct (Byte.of_N (Z.to_N (v mod 256))) as [b|] eqn:E.
  - apply Byte.to_of_N in E. rewrite E. lia.
  - apply Byte.of_N_None_iff in E. lia.
Qed.

Lemma byte_of_Z_val (b : byte) : byte_of_Z (byte_val b) = b.
Proof.
  unfold byte_of_Z. pose proof (byte_val_range b) as Hb.
  rewrite Z.mod_small by lia. unfold byte_val.
  rewrite N2Z.id, Byte.of_to_N. reflexivity.
Qed.

Lemma byte_val_inj (a b : byte) : byte_val a = byte_val b -> a = b.
Proof.
  intros H. rewrite <- (byte_of_Z_val a), <- (byte_of_Z_val b), H.
  reflexivity.
Qed.

Lemma int16_le_range (lo hi : byte) : is_int16 (int16_le lo hi).
Proof.
  unfold is_int16, int16_le.
  pose proof (byte_val_range lo). pose proof (byte_val_range hi).
  destruct (Z.ltb_spec (byte_val lo + 256 * byte_val hi) 32768); lia.
Qed.

(** Packing a field and reading it back. *)
Lemma int16_le_pack_h (v : Z) :
  is_int16 v ->
  int16_le (byte_of_Z v) (byte_of_Z ((v mod 65536) / 256)) = v.
Proof.
  unfold is_int16. intros Hv. unfold int16_le. rewrite !byte_val_of_Z.
  destruct (Z.ltb_spec
              (v mod 256 + 256 * (((v mod 65536) / 256) mod 256)) 32768);
    Z.div_mod_to_equations; lia.
Qed.

(** Every pair of bytes is the packing of the field it decodes to. *)
Lemma pack_h_int16_le (lo hi : byte) : pack_h (int16_le lo hi) = [lo; hi].
Proof.
  unfold pack_h.
  pose proof (byte_val_range lo) as Hlo.
  pose proof (byte_val_range hi) as Hhi.
  f_equal; [|f_equal]; apply byte_val_inj; rewrite byte_val_of_Z;
    unfold int16_le;
    destruct (Z.ltb_spec (byte_val lo + 256 * byte_val hi) 32768);
    Z.div_mod_to_equations; lia.
Qed.

Lemma to_bytes_1 (rate : Z) :
  (0 <= rate <= 255 -> to_bytes rate 1 = Ok [byte_of_Z rate])
  /\ (rate < 0 \/ 255 < rate -> to_bytes rate 1 = Raise OverflowError).
Proof.
  unfold to_bytes. change (256 ^ Z.of_nat 1) with 256.
  split; intros H.
  - destruct (Z.ltb_spec rate 0); [lia|].
    destruct (Z.leb_spec 256 rate); [lia|]. reflexivity.
  - destruct (Z.ltb_spec rate 0); [reflexivity|].
    destruct (Z.leb_spec 256 rate); [reflexivity|lia].
Qed.

Lemma int_from_bytes_snoc (data : list byte) (b : byte) :
  int_from_bytes (data ++ [b]) = int_from_bytes data * 256 + byte_val b.
Proof. unfold int_from_bytes. rewrite fold_left_app. reflexivity. Qed.

Lemma int_from_bytes_range (data : list byte) :
  0 <= int_from_bytes data < 256 ^ Z.of_nat (length data).
Proof.
  induction data as [|b data IH] using rev_ind; [cbn; lia|].
  rewrite int_from_bytes_snoc, length_app, Nat2Z.inj_add, Z.pow_add_r by lia.
  cbn [length]. change (256 ^ Z.of_nat 1) with 256.
  pose proof (byte_val_range b). nia.
Qed.

Lemma struct_unpack_wrong_length (data : list byte) :
  length data <> 10%nat -> struct_unpack_5h data = Raise StructError.
Proof.
  intros H. unfold struct_unpack_5h.
  destruct (Nat.eqb_spec (length data) 10); [contradiction|reflexivity].
Qed.

Lemma length_10_inv {A} (l : list A) :
  length l = 10%nat ->
  exists a0 a1 a2 a3 a4 a5 a6 a7 a8 a9,
    l = [a0; a1; a2; a3; a4; a5; a6; a7; a8; a9].
Proof.
  intros H.
  do 10 (destruct l as [|? l]; [discriminate|]).
  destruct l; [|discriminate]. eauto 11.
Qed.

Lemma filter_first {A} (f : A -> bool) (l : list A) (a : A) (rest : list A) :
  List.filter f l = a :: rest ->
  exists before after,
    l = before ++ a :: after
    /\ forallb (fun b => negb (f b)) before = true
    /\ f a = true.
Proof.
  induction l as [|b l IH]; cbn; [discriminate|].
  destruct (f b) eqn:Hb.
  - intros [= -> _]. exists [], l. auto.
  - intros H. destruct (IH H) as (before & after & -> & Hbefore & Ha).
    exists (b :: before), after. cbn. rewrite Hb, Hbefore. auto.
Qed.

End Bytes.

(* ===================================================================== *)
(** * The packet codec                                                    *)
(* ===================================================================== *)

Section Codec.

Lemma scale_is_16384 : float_of_int (Z.shiftl 1 14) = Ok scale14.
Proof. vm_compute. reflexivity. Qed.

Lemma all_from_spec (check : Z -> bool) (n : nat) :
  forall lo, all_from check lo n = true ->
  forall v, lo <= v < lo + Z.of_nat n -> check v = true.
Proof.
  induction n as [|k IH]; intros lo Hall v Hv; [lia|].
  cbn [all_from] in Hall. apply andb_prop in Hall as [Hlo Hrest].
  destruct (Z.eq_dec v lo) as [->|Hne]; [exact Hlo|].
  apply (IH (lo + 1) Hrest). lia.
Qed.

(** Checked on each of the 65536 values of an int16. *)
Lemma scaled_exactly_all :
  all_from scaled_exactly (-32768) (Z.to_nat 65536) = true.
Proof. vm_compute. reflexivity. Qed.

Lemma int16_scaled (v : Z) :
  is_int16 v ->
  exists f, int_truediv_float v scale14 = Ok f
            /\ has_value f (v # 16384) = true
            /\ in_quat_range f = true.
Proof.
  intros Hv.
  pose proof (all_from_spec _ _ _ scaled_exactly_all v) as Hs.
  rewrite Z2Nat.id in Hs by lia.
  unfold is_int16 in Hv. specialize (Hs ltac:(lia)).
  unfold scaled_exactly in Hs.
  destruct (int_truediv_float v scale14) as [f|e]; [|discriminate].
  apply andb_prop in Hs as [H1 H2]. exists f. auto.
Qed.

(** A buffer of ten bytes decodes field by field, in both variants of
    [parse_packet]. *)
Lemma nx_parse_packet_10 (b0 b1 b2 b3 b4 b5 b6 b7 b8 b9 : byte) :
  exists q,
    Nx.parse_packet [b0; b1; b2; b3; b4; b5; b6; b7; b8; b9] = Ok q
    /\ quat_is q (int16_le b0 b1) (int16_le b2 b3)
                 (int16_le b4 b5) (int16_le b6 b7) = true
    /\ quat_in_range q = true
    /\ Tracker.parse_packet [b0; b1; b2; b3; b4; b5; b6; b7; b8; b9]
       = Ok [Nx.w q; Nx.x q; Nx.y q; Nx.z q].
Proof.
  destruct (int16_scaled _ (int16_le_range b0 b1)) as (f0 & E0 & V0 & R0).
  destruct (int16_scaled _ (int16_le_range b2 b3)) as (f1 & E1 & V1 & R1).
  destruct (int16_scaled _ (int16_le_range b4 b5)) as (f2 & E2 & V2 & R2).
  destruct (int16_scaled _ (int16_le_range b6 b7)) as (f3 & E3 & V3 & R3).
  exists (Nx.mkQuaternion f0 f1 f2 f3).
  unfold Nx.parse_packet, Tracker.parse_packet.
  rewrite scale_is_16384.
  cbn [rbind struct_unpack_5h length Nat.eqb unpack_fields take
       mapM_result].
  rewrite E0, E1, E2, E3.
  cbn [rbind]. unfold quat_is, quat_in_range. cbn [Nx.w Nx.x Nx.y Nx.z].
  rewrite V0, V1, V2, V3, R0, R1, R2, R3. auto.
Qed.

Lemma parse_packet_wrong_length (data : list byte) :
  length data <> 10%nat ->
  Nx.parse_packet data = Raise StructError
  /\ Tracker.parse_packet data = Raise StructError.
Proof.
  intros Hlen. unfold Nx.parse_packet, Tracker.parse_packet.
  rewrite scale_is_16384, (struct_unpack_wrong_length data Hlen).
  split; reflexivity.
Qed.

(** The two later variants of [parse_packet] are the same function. *)
Lemma pynx_parse_packet_same : Pynx.parse_packet = Tracker.parse_packet.
Proof. reflexivity. Qed.

Example parse_scenario :
  Nx.parse_packet scenario_packet
  = Ok (Nx.mkQuaternion (S754_zero false) (S754_zero false)
          (S754_finite false 4503599627370496 (-52)) (S754_zero false)).
Proof. vm_compute. reflexivity. Qed.

(** C1. Every buffer of ten bytes is the packing of five int16 values,
    read little-endian; [parse_packet] returns the first four of them,
    each divided by 16384.0 exactly, as w, x, y, z in the order of the
    wire, with no sign changed, and ignores the fifth. Conversely the
    packet built from any five int16 values decodes to the first four
    over 16384. The list-returning variant of tracker.py gives the same
    four floats. *)
Theorem parse_packet_wire_order :
  (forall b0 b1 b2 b3 b4 b5 b6 b7 b8 b9 : byte,
     let data := [b0; b1; b2; b3; b4; b5; b6; b7; b8; b9] in
     let values := [int16_le b0 b1; int16_le b2 b3; int16_le b4 b5;
                    int16_le b6 b7; int16_le b8 b9] in
     struct_unpack_5h data = Ok values
     /\ struct_pack_5h values = Ok data
     /\ exists q, Nx.parse_packet data = Ok q
                  /\ quat_is q (int16_le b0 b1) (int16_le b2 b3)
                               (int16_le b4 b5) (int16_le b6 b7) = true
                  /\ Tracker.parse_packet data
                     = Ok [Nx.w q; Nx.x q; Nx.y q; Nx.z q])
  /\ (forall v0 v1 v2 v3 v4 : Z,
        is_int16 v0 -> is_int16 v1 -> is_int16 v2 -> is_int16 v3 ->
        is_int16 v4 ->
        exists data q,
          struct_pack_5h [v0; v1; v2; v3; v4] = Ok data
          /\ length data = 10%nat
          /\ Nx.parse_packet data = Ok q
          /\ quat_is q v0 v1 v2 v3 = true
          /\ Tracker.parse_packet data
             = Ok [Nx.w q; Nx.x q; Nx.y q; Nx.z q]).
Proof.
  split.
  - intros b0 b1 b2 b3 b4 b5 b6 b7 b8 b9 data values.
    split; [reflexivity|]. split.
    + subst data values. unfold struct_pack_5h.
      replace (forallb _ _) with true.
      2:{ symmetry. cbn [forallb].
          repeat match goal with
                 | |- context [int16_le ?a ?b] =>
                     let H := fresh in
                     pose proof (int16_le_range a b) as H;
                     unfold is_int16 in H;
                     generalize dependent (int16_le a b); intros
                 end.
          repeat (apply andb_true_intro; split); lia. }
      cbn [length Nat.eqb andb flat_map app].
      rewrite !pack_h_int16_le. reflexivity.
    + destruct (nx_parse_packet_10 b0 b1 b2 b3 b4 b5 b6 b7 b8 b9)
        as (q & Hq & Hv & _ & Ht).
      exists q. auto.
  - intros v0 v1 v2 v3 v4 H0 H1 H2 H3 H4.
    destruct (nx_parse_packet_10
                (byte_of_Z v0) (byte_of_Z ((v0 mod 65536) / 256))
                (byte_of_Z v1) (byte_of_Z ((v1 mod 65536) / 256))
                (byte_of_Z v2) (byte_of_Z ((v2 mod 65536) / 256))
                (byte_of_Z v3) (byte_of_Z ((v3 mod 65536) / 256))
                (byte_of_Z v4) (byte_of_Z ((v4 mod 65536) / 256)))
      as (q & Hq & Hv & _ & Ht).
    rewrite !int16_le_pack_h in Hv by assumption.
    eexists _, q.
    split; [|split; [|split; [exact Hq|split; [exact Hv|exact Ht]]]].
    + unfold struct_pack_5h. cbn [length Nat.eqb andb forallb].
      replace (_ && _) with true; [reflexivity|].
      symmetry. unfold is_int16 in *.
      repeat (apply andb_true_intro; split); lia.
    + reflexivity.
Qed.

Lemma parse_packet_wire_order_witness :
  exists data q,
    struct_pack_5h [0; 0; 16384; 0; 10] = Ok data
    /\ length data = 10%nat
    /\ Nx.parse_packet data = Ok q
    /\ quat_is q 0 0 16384 0 = true
    /\ Tracker.parse_packet data = Ok [Nx.w q; Nx.x q; Nx.y q; Nx.z q].
Proof.
  apply (proj2 parse_packet_wire_order 0 0 16384 0 10);
    unfold is_int16; lia.
Defined.

(** C5. [parse_packet] raises [struct.error] (the malformed-packet
    error) for every buffer whose length is not 10 and returns no value
    then; for every buffer of length 10 it returns a quaternion and
    raises nothing, whatever the bytes are. *)
Theorem parse_packet_length (data : list byte) :
  (length data <> 10%nat ->
     Nx.parse_packet data = Raise StructError
     /\ Tracker.parse_packet data = Raise StructError)
  /\ (length data = 10%nat ->
        exists q, Nx.parse_packet data = Ok q
                  /\ Tracker.parse_packet data
                     = Ok [Nx.w q; Nx.x q; Nx.y q; Nx.z q]).
Proof.
  split; intros Hlen.
  - apply parse_packet_wrong_length. exact Hlen.
  - destruct (length_10_inv data Hlen)
      as (b0 & b1 & b2 & b3 & b4 & b5 & b6 & b7 & b8 & b9 & ->).
    destruct (nx_parse_packet_10 b0 b1 b2 b3 b4 b5 b6 b7 b8 b9)
      as (q & Hq & _ & _ & Ht).
    exists q. auto.
Qed.

Lemma parse_packet_length_witness :
  (Nx.parse_packet (take 9 scenario_packet) = Raise StructError
   /\ Tracker.parse_packet (take 9 scenario_packet) = Raise StructError)
  /\ (Nx.parse_packet (scenario_packet ++ [x00]) = Raise StructError
      /\ Tracker.parse_packet (scenario_packet ++ [x00]) = Raise StructError)
  /\ exists q, Nx.parse_packet scenario_packet = Ok q
               /\ Tracker.parse_packet scenario_packet
                  = Ok [Nx.w q; Nx.x q; Nx.y q; Nx.z q].
Proof.
  split; [|split].
  - apply (proj1 (parse_packet_length (take 9 scenario_packet))).
    vm_compute. discriminate.
  - apply (proj1 (parse_packet_length (scenario_packet ++ [x00]))).
    vm_compute. discriminate.
  - apply (proj2 (parse_packet_length scenario_packet)). reflexivity.
Defined.

(** C8. Every component of a quaternion that [parse_packet] returns is
    a finite float in the half-open interval [-2, 2). *)
Theorem parse_packet_range (data : list byte) (q : Nx.Quaternion) :
  Nx.parse_packet data = Ok q ->
  quat_in_range q = true
  /\ Tracker.parse_packet data = Ok [Nx.w q; Nx.x q; Nx.y q; Nx.z q]
  /\ forallb in_quat_range [Nx.w q; Nx.x q; Nx.y q; Nx.z q] = true.
Proof.
  intros Hq.
  destruct (Nat.eq_dec (length data) 10%nat) as [Hlen|Hlen].
  2:{ rewrite (proj1 (parse_packet_wrong_length data Hlen)) in Hq.
      discriminate. }
  destruct (length_10_inv data Hlen)
    as (b0 & b1 & b2 & b3 & b4 & b5 & b6 & b7 & b8 & b9 & ->).
  destruct (nx_parse_packet_10 b0 b1 b2 b3 b4 b5 b6 b7 b8 b9)
    as (q' & Hq' & _ & Hr & Ht).
  rewrite Hq in Hq'. injection Hq' as <-.
  split; [exact Hr|]. split; [exact Ht|].
  unfold quat_in_range in Hr. cbn [forallb].
  repeat (apply andb_prop in Hr as [Hr ?]).
  repeat (apply andb_true_intro; split); auto.
Qed.

(** The extreme fields: -32768 decodes to -2.0, 32767 to just under 2. *)
Lemma parse_packet_range_witness :
  quat_in_range
    (Nx.mkQuaternion (S754_finite true 4503599627370496 (-51))
       (S754_finite false 9006924376834048 (-52))
       (S754_zero false)
       (S754_finite false 4503599627370496 (-66))) = true.
Proof.
  apply (proj1 (parse_packet_range extreme_packet _ eq_refl)).
Defined.

End Codec.

(* ===================================================================== *)
(** * Relations that every step of a computation keeps                    *)
(* ===================================================================== *)

Section Preservation.

Context {S : Type} (R : S -> S -> Prop).
Hypothesis R_refl : forall s, R s s.
Hypothesis R_trans : forall a b c, R a b -> R b c -> R a c.

Lemma preserves_ret {A} (a : A) : preserves R (ret a).
Proof. intros o s. apply R_refl. Qed.

Lemma preserves_raise {A} (e : Exn) : preserves R (raise (A := A) e).
Proof. intros o s. apply R_refl. Qed.

Lemma preserves_pure {A} (r : Result A) : preserves R (pure r).
Proof. intros o s. apply R_refl. Qed.

Lemma preserves_bind {A B} (m : M S A) (k : A -> M S B) :
  preserves R m -> (forall a, preserves R (k a)) -> preserves R (bind m k).
Proof.
  intros Hm Hk o s. unfold bind. specialize (Hm o s).
  destruct (m o s) as [[a|e] s1]; cbn in *.
  - eapply R_trans; [exact Hm | apply Hk].
  - exact Hm.
Qed.

End Preservation.

Section NoRelease.

Lemma no_release_refl (w : World) : no_release w w.
Proof. split; [reflexivity|]. exists []. rewrite app_nil_r. auto. Qed.

Lemma no_release_trans (a b c : World) :
  no_release a b -> no_release b c -> no_release a c.
Proof.
  intros (P1 & l1 & E1 & F1) (P2 & l2 & E2 & F2).
  split; [congruence|]. exists (l1 ++ l2).
  rewrite E2, E1, app_assoc, forallb_app, F1, F2. auto.
Qed.

Lemma nr_bind {A B} (m : M World A) (k : A -> M World B) :
  preserves no_release m -> (forall a, preserves no_release (k a)) ->
  preserves no_release (bind m k).
Proof. apply preserves_bind. exact no_release_trans. Qed.

Lemma nr_ret {A} (a : A) : preserves no_release (ret a).
Proof. apply preserves_ret. exact no_release_refl. Qed.

Lemma nr_raise {A} (e : Exn) : preserves no_release (raise (A := A) e).
Proof. apply preserves_raise. exact no_release_refl. Qed.

Lemma no_release_call (op : Call) :
  is_release op = false -> preserves no_release (call op).
Proof.
  intros Hop o w. unfold call.
  destruct (raises o (trace w) op); cbn; (split; [reflexivity|]);
    exists [op]; cbn; rewrite Hop; auto.
Qed.

Lemma no_release_silent {A} (m : M World A) :
  (forall o w, trace (snd (m o w)) = trace w
               /\ futures (snd (m o w)) = futures w) ->
  preserves no_release m.
Proof.
  intros H o w. destruct (H o w) as [Ht Hf].
  split; [exact Hf|]. exists []. rewrite app_nil_r. auto.
Qed.

Lemma no_release_update (c : nat) (f : Client -> Client) :
  preserves no_release (update_client c f).
Proof. apply no_release_silent. intros o w. split; reflexivity. Qed.

Lemma no_release_new_client : preserves no_release BleakClient.
Proof. apply no_release_silent. intros o w. split; reflexivity. Qed.

Lemma no_release_print (s : string) : preserves no_release (print s).
Proof. apply no_release_silent. intros o w. split; reflexivity. Qed.

Ltac nr_steps :=
  repeat first
    [ apply nr_ret
    | apply nr_raise
    | apply no_release_call; reflexivity
    | apply no_release_update
    | apply nr_bind; [ | intros ? ] ].

Lemma no_release_connect (c : nat) : preserves no_release (connect c).
Proof. unfold connect. nr_steps. Qed.

Lemma no_release_write (c : nat) (u : string) (d : list byte) :
  preserves no_release (write_gatt_char c u d).
Proof. unfold write_gatt_char. nr_steps. Qed.

Lemma no_release_start_notify (c : nat) (u : string) (h : Handler) :
  preserves no_release (start_notify c u h).
Proof. unfold start_notify. nr_steps. Qed.

Lemma no_release_read (c : nat) (u : string) :
  preserves no_release (read_gatt_char c u).
Proof.
  intros o w. unfold read_gatt_char.
  pose proof (no_release_call (ReadGattChar c u) eq_refl o w) as H.
  destruct (call (ReadGattChar c u) o w) as [[[]|e] w1]; exact H.
Qed.

Lemma no_release_discover : preserves no_release discover.
Proof.
  intros o w. unfold discover.
  pose proof (no_release_call Discover eq_refl o w) as H.
  destruct (call Discover o w) as [[[]|e] w1]; exact H.
Qed.

Lemma no_release_get_nx_tracker : preserves no_release Tracker.get_nx_tracker.
Proof.
  unfold Tracker.get_nx_tracker.
  apply nr_bind; [apply no_release_discover|].
  intros devices. cbv zeta.
  destruct (Nat.eqb _ 0); [apply nr_raise|].
  apply nr_bind.
  - destruct (Nat.ltb 1 _); [apply no_release_print | apply nr_ret].
  - intros _. destruct (List.filter _ devices); [apply nr_raise | apply nr_ret].
Qed.

Lemma runner_step_refl (s : BleakRunner.t * World) : runner_step s s.
Proof. split; [reflexivity | apply no_release_refl]. Qed.

Lemma runner_step_trans (a b c : BleakRunner.t * World) :
  runner_step a b -> runner_step b c -> runner_step a c.
Proof.
  intros [R1 N1] [R2 N2]. split; [congruence|].
  eapply no_release_trans; eassumption.
Qed.

Lemma rs_bind {A B} (m : M (BleakRunner.t * World) A)
    (k : A -> M (BleakRunner.t * World) B) :
  preserves runner_step m -> (forall a, preserves runner_step (k a)) ->
  preserves runner_step (bind m k).
Proof. apply preserves_bind. exact runner_step_trans. Qed.

Lemma runner_step_in_world {A} (m : M World A) :
  preserves no_release m -> preserves runner_step (in_world m).
Proof.
  intros Hm o [self w]. unfold in_world. specialize (Hm o w).
  destruct (m o w) as [r w1]. split; [reflexivity | exact Hm].
Qed.

Lemma runner_step_modify (f : BleakRunner.t -> BleakRunner.t) :
  (forall self, BleakRunner._running (f self) = BleakRunner._running self) ->
  preserves runner_step (modify_self f).
Proof.
  intros Hf o [self w]. split; [apply Hf | apply no_release_refl].
Qed.

Lemma runner_step_get_self : preserves runner_step get_self.
Proof. intros o [self w]. apply runner_step_refl. Qed.

Lemma runner_step_get_client : preserves runner_step BleakRunner.get_client.
Proof.
  unfold BleakRunner.get_client.
  apply rs_bind; [apply runner_step_get_self|].
  intros self. destruct (BleakRunner.client self).
  - apply preserves_ret, runner_step_refl.
  - apply preserves_raise, runner_step_refl.
Qed.

Ltac rs_steps :=
  repeat first
    [ apply runner_step_get_client
    | apply runner_step_get_self
    | apply runner_step_modify; reflexivity
    | apply preserves_ret, runner_step_refl
    | apply runner_step_in_world;
      first [ apply no_release_connect | apply no_release_write
            | apply no_release_start_notify | apply no_release_read
            | apply no_release_new_client | apply no_release_get_nx_tracker
            | apply no_release_call; reflexivity ]
    | apply rs_bind; [ | intros ? ] ].

(** The coroutine [_go] never unsubscribes, never disconnects and never
    touches [_running], however far it gets. *)
Lemma runner_step_go : preserves runner_step BleakRunner._go.
Proof.
  unfold BleakRunner._go.
  apply rs_bind; [apply runner_step_get_self|]. intros self.
  apply rs_bind.
  { destruct (String.eqb _ _); rs_steps. }
  intros _. rs_steps.
Qed.

End NoRelease.

(* ===================================================================== *)
(** * The streaming session                                               *)
(* ===================================================================== *)

Section Session.

Variable o : Oracle.

Lemma calls_since_app (w w' : World) (l : list Call) :
  trace w' = trace w ++ l -> calls_since w w' = l.
Proof. intros H. unfold calls_since. rewrite H. apply drop_app_length. Qed.

(** ** [NxTracker] *)

Ltac nx_start H :=
  unfold NxTracker.start_stream, connect, write_gatt_char, start_notify;
  unfold_monad; rewrite H; cbn.

Lemma nx_start_running (self : NxTracker.t) (w : World) (rate : Z) :
  NxTracker._running self = true ->
  NxTracker.start_stream rate o (self, w) = (Ok tt, (self, w)).
Proof.
  intros H. unfold NxTracker.start_stream. unfold_monad. rewrite H.
  reflexivity.
Qed.

Lemma nx_stop_idle (self : NxTracker.t) (w : World) :
  NxTracker._running self = false ->
  NxTracker.stop_stream o (self, w) = (Ok tt, (self, w)).
Proof.
  intros H. unfold NxTracker.stop_stream. unfold_monad. rewrite H.
  reflexivity.
Qed.

(** [stop_stream] clears the flag before its first transport call, so the
    session is idle afterwards whatever the calls do. *)
Lemma nx_stop_leaves_idle (self : NxTracker.t) (w : World) :
  NxTracker._running (fst (snd (NxTracker.stop_stream o (self, w)))) = false.
Proof.
  unfold NxTracker.stop_stream, write_gatt_char, stop_notify, disconnect.
  unfold_monad.
  destruct (NxTracker._running self) eqn:H; cbn; [|exact H].
  repeat (step_oracle; [reflexivity|]). reflexivity.
Qed.

(** Without a failure, [NxTracker.stop_stream] writes the stop byte,
    unsubscribes from the orientation channel and disconnects. *)
Lemma nx_stop_streaming (self : NxTracker.t) (w : World) :
  NxTracker._running self = true ->
  fst (NxTracker.stop_stream o (self, w)) = Ok tt ->
  calls_since w (snd (snd (NxTracker.stop_stream o (self, w))))
  = [WriteGattChar (NxTracker.client self) Nx.START_UUID [x00];
     StopNotify (NxTracker.client self) Nx.STREAM_UUID;
     Disconnect (NxTracker.client self)].
Proof.
  intros H.
  unfold NxTracker.stop_stream, write_gatt_char, stop_notify, disconnect.
  unfold_monad. rewrite H. cbn.
  repeat (step_oracle; [discriminate|]). intros _.
  apply calls_since_app. cbn. rewrite <- !app_assoc. reflexivity.
Qed.

(** C7. A second [start_stream] without a [stop_stream] in between
    changes nothing and makes no call, whatever rate it is given; when the
    first call returns, the two calls together have connected once,
    written the one-byte rate once and subscribed once, in this order. *)
Theorem start_stream_twice_once
    (self : NxTracker.t) (w : World) (rate rate' : Z) :
  NxTracker._running self = false ->
  let c := NxTracker.client self in
  let first := NxTracker.start_stream rate o (self, w) in
  let second := NxTracker.start_stream rate' o (snd first) in
  second = (Ok tt, snd first)
  /\ (fst first = Ok tt ->
      0 <= rate <= 255
      /\ calls_since w (snd (snd second)) =
           [Connect c;
            WriteGattChar c Nx.START_UUID [byte_of_Z rate];
            StartNotify c Nx.STREAM_UUID NxOnNotify]).
Proof.
  intros Hidle c first second.
  assert (Hrun : NxTracker._running (fst (snd first)) = true).
  { subst first c. nx_start Hidle.
    step_oracle; [reflexivity|].
    destruct (to_bytes rate 1); cbn; [|reflexivity].
    repeat (step_oracle; [reflexivity|]). reflexivity. }
  assert (Hsecond : second = (Ok tt, snd first)).
  { subst second. destruct (snd first) as [self1 w1] eqn:E1.
    apply nx_start_running. exact Hrun. }
  split; [exact Hsecond|].
  rewrite Hsecond. cbn [snd]. subst first c. clear Hrun Hsecond second.
  nx_start Hidle.
  step_oracle; [discriminate|].
  destruct (to_bytes_1 rate) as [Hin Hout].
  destruct (Z_le_dec 0 rate) as [H0|H0];
    [|rewrite Hout by lia; cbn; discriminate].
  destruct (Z_le_dec rate 255) as [H1|H1];
    [|rewrite Hout by lia; cbn; discriminate].
  rewrite Hin by lia. cbn.
  repeat (step_oracle; [discriminate|]).
  intros _. split; [lia|].
  apply calls_since_app. cbn. rewrite <- !app_assoc. reflexivity.
Qed.

(** C10, as amended. With a rate outside 0..255 and the session idle,
    [start_stream] sets the running flag and connects; if the connect
    raises, that error is what the caller sees; otherwise
    [rate.to_bytes(1)] raises [OverflowError] with the client connected,
    nothing written and nothing subscribed. Either way the session stays
    marked as running, so every later [start_stream] is a no-op. *)
Theorem start_stream_bad_rate (self : NxTracker.t) (w : World) (rate : Z) :
  NxTracker._running self = false ->
  rate < 0 \/ 255 < rate ->
  let c := NxTracker.client self in
  let run := NxTracker.start_stream rate o (self, w) in
  let w' := snd (snd run) in
  NxTracker._running (fst (snd run)) = true
  /\ calls_since w w' = [Connect c]
  /\ (forall rate', NxTracker.start_stream rate' o (snd run)
                    = (Ok tt, snd run))
  /\ (if raises o (trace w) (Connect c)
      then fst run = Raise (ExternalError (length (trace w)))
           /\ clients w' = clients w
      else fst run = Raise OverflowError
           /\ clients w'
              = alter (fun cl => mkClient true (callbacks cl)) c (clients w)).
Proof.
  intros Hidle Hrate c run w'.
  assert (Hrun : NxTracker._running (fst (snd run)) = true
                 /\ calls_since w w' = [Connect c]
                 /\ (if raises o (trace w) (Connect c)
      then fst run = Raise (ExternalError (length (trace w)))
           /\ clients w' = clients w
      else fst run = Raise OverflowError
           /\ clients w'
              = alter (fun cl => mkClient true (callbacks cl)) c (clients w))).
  { subst w' run c. nx_start Hidle.
    rewrite (proj2 (to_bytes_1 rate) Hrate).
    step_oracle.
    - split; [reflexivity|]. split; [|split; reflexivity].
      apply calls_since_app. reflexivity.
    - split; [reflexivity|]. split; [|split; reflexivity].
      apply calls_since_app. reflexivity. }
  destruct Hrun as (Hrun & Hcalls & Hres).
  repeat split; try assumption.
  intros rate'. destruct (snd run) as [self1 w1].
  apply nx_start_running. exact Hrun.
Qed.

(** What a failed [NxTracker.start_stream] leaves behind. *)
Lemma nx_start_failure
    (self : NxTracker.t) (w : World) (rate : Z) (e : Exn) :
  NxTracker._running self = false ->
  fst (NxTracker.start_stream rate o (self, w)) = Raise e ->
  let c := NxTracker.client self in
  let run := NxTracker.start_stream rate o (self, w) in
  let w' := snd (snd run) in
  NxTracker._running (fst (snd run)) = true
  /\ forallb (fun op => negb (is_release op)) (calls_since w w') = true
  /\ (forall rate', NxTracker.start_stream rate' o (snd run)
                    = (Ok tt, snd run))
  /\ (raises o (trace w) (Connect c) = false ->
      forall cl, clients w !! c = Some cl ->
      exists cl', clients w' !! c = Some cl' /\ is_connected cl' = true).
Proof.
  intros Hidle Hfail c run w'.
  assert (Hrun : NxTracker._running (fst (snd run)) = true
    /\ forallb (fun op => negb (is_release op)) (calls_since w w') = true
    /\ (raises o (trace w) (Connect c) = false ->
      forall cl, clients w !! c = Some cl ->
      exists cl', clients w' !! c = Some cl' /\ is_connected cl' = true)).
  { subst w' run c. clear Hfail. nx_start Hidle.
    step_oracle.
    { split; [reflexivity|]. split; [|discriminate].
      erewrite calls_since_app by reflexivity. reflexivity. }
    destruct (to_bytes rate 1) as [payload|e']; cbn.
    2:{ split; [reflexivity|]. split.
        - erewrite calls_since_app by reflexivity. reflexivity.
        - intros _ cl Hcl. rewrite list_lookup_alter_eq, Hcl. cbn. eauto. }
    step_oracle.
    { split; [reflexivity|]. split.
      - erewrite calls_since_app by (cbn; rewrite <- app_assoc; reflexivity).
        reflexivity.
      - intros _ cl Hcl. rewrite list_lookup_alter_eq, Hcl. cbn. eauto. }
    step_oracle.
    { split; [reflexivity|]. split.
      - erewrite calls_since_app
          by (cbn; rewrite <- !app_assoc; reflexivity).
        reflexivity.
      - intros _ cl Hcl. rewrite list_lookup_alter_eq, Hcl. cbn. eauto. }
    split; [reflexivity|]. split.
    - erewrite calls_since_app by (cbn; rewrite <- !app_assoc; reflexivity).
      reflexivity.
    - intros _ cl Hcl. rewrite !list_lookup_alter_eq, Hcl. cbn. eauto. }
  destruct Hrun as (Hrun & Hcalls & Hconn).
  repeat split; try assumption.
  intros rate'. destruct (snd run) as [self1 w1].
  apply nx_start_running. exact Hrun.
Qed.

(** ** [BleakRunner] *)

Lemma runner_start_running (self : BleakRunner.t) (w : World) :
  BleakRunner._running self = true ->
  BleakRunner.start_stream o (self, w) = (Ok tt, (self, w)).
Proof.
  intros H. unfold BleakRunner.start_stream. unfold_monad. rewrite H.
  reflexivity.
Qed.

(** From idle, [start_stream] sets the flag, hands [_go] to the loop and
    returns; what [_go] raises ends up in the future. *)
Lemma runner_start_idle (self : BleakRunner.t) (w : World) :
  BleakRunner._running self = false ->
  let task := BleakRunner._go o (BleakRunner.set_running true self, w) in
  BleakRunner.start_stream o (self, w)
  = (Ok tt, (fst (snd task), log_future (fst task) (snd (snd task)))).
Proof.
  intros H. unfold BleakRunner.start_stream. unfold_monad. rewrite H.
  cbv beta iota. unfold BleakRunner.set_running at 1.
  destruct (BleakRunner._go o _) as [r [self1 w1]]. reflexivity.
Qed.

Lemma runner_stop_idle (self : BleakRunner.t) (w : World) :
  BleakRunner._running self = false ->
  BleakRunner.stop_stream o (self, w) = (Ok tt, (self, w)).
Proof.
  intros H. unfold BleakRunner.stop_stream. unfold_monad. rewrite H.
  reflexivity.
Qed.

Lemma runner_stop_leaves_idle (self : BleakRunner.t) (w : World) :
  BleakRunner._running
    (fst (snd (BleakRunner.stop_stream o (self, w)))) = false.
Proof.
  unfold BleakRunner.stop_stream, BleakRunner._stop, BleakRunner.get_client,
    write_gatt_char, stop_notify, disconnect.
  unfold_monad.
  destruct self as [addr [|] [c|]]; cbn; try reflexivity.
  repeat (step_oracle; [reflexivity|]). reflexivity.
Qed.

(** C2, as amended. A [start_stream] that fails keeps the running flag it
    set on entry, issues no unsubscription and no disconnect, and leaves
    the client connected when the connect itself had succeeded; a later
    [start_stream] is then a no-op. [NxTracker.start_stream] raises the
    error to its caller; [BleakRunner.start_stream] returns normally and
    the error of [_go] stays in the future that nobody reads. *)
Theorem start_failure_keeps_running
    (nx : NxTracker.t) (runner : BleakRunner.t) (w : World)
    (rate : Z) (e : Exn) :
  NxTracker._running nx = false ->
  BleakRunner._running runner = false ->
  let c := NxTracker.client nx in
  let run := NxTracker.start_stream rate o (nx, w) in
  let run' := BleakRunner.start_stream o (runner, w) in
  (fst run = Raise e ->
     NxTracker._running (fst (snd run)) = true
     /\ forallb (fun op => negb (is_release op))
          (calls_since w (snd (snd run))) = true
     /\ (forall rate', NxTracker.start_stream rate' o (snd run)
                       = (Ok tt, snd run))
     /\ (raises o (trace w) (Connect c) = false ->
         forall cl, clients w !! c = Some cl ->
         exists cl', clients (snd (snd run)) !! c = Some cl'
                     /\ is_connected cl' = true))
  /\ (fst run' = Ok tt
      /\ futures (snd (snd run'))
         = futures w
           ++ [fst (BleakRunner._go o (BleakRunner.set_running true runner, w))]
      /\ BleakRunner._running (fst (snd run')) = true
      /\ forallb (fun op => negb (is_release op))
           (calls_since w (snd (snd run'))) = true
      /\ BleakRunner.start_stream o (snd run') = (Ok tt, snd run')).
Proof.
  intros Hnx Hrunner c run run'. split.
  - intros Hfail. apply (nx_start_failure nx w rate e Hnx Hfail).
  - subst run'. rewrite (runner_start_idle runner w Hrunner).
    pose proof (runner_step_go o (BleakRunner.set_running true runner, w))
      as [Hflag Hnr].
    destruct (BleakRunner._go o _) as [r [self1 w1]]. cbn in *.
    repeat split; try assumption.
    + f_equal. apply Hnr.
    + destruct Hnr as (_ & l & E & F).
      rewrite (calls_since_app w (log_future r w1) l E). exact F.
    + apply runner_start_running. exact Hflag.
Qed.

(** C3, as amended. For a payload that decodes, [_on_notify] calls the Tk
    callback first and, when that returns, the OSC client next, with the
    same four floats; when the Tk callback raises, the exception leaves
    the handler and the OSC client is not called for this sample. The
    handler reads and writes nothing of the session and leaves the
    subscriptions alone, so this holds of every notification, whatever
    happened to earlier ones. The handler of pynx is the same. *)
Theorem on_notify_fan_out (w : World) (data : list byte)
    (quat : list float) :
  Tracker.parse_packet data = Ok quat ->
  let run := BleakRunner._on_notify data o w in
  Pynx._on_notify data o w = run
  /\ clients (snd run) = clients w
  /\ (if raises o (trace w) (Update quat)
      then fst run = Raise (ExternalError (length (trace w)))
           /\ calls_since w (snd run) = [Update quat]
      else calls_since w (snd run) = [Update quat; SendMessage "/quat" quat]
           /\ fst run
              = if raises o (trace w ++ [Update quat])
                     (SendMessage "/quat" quat)
                then Raise (ExternalError (S (length (trace w))))
                else Ok tt).
Proof.
  intros Hparse run. split; [reflexivity|]. subst run.
  unfold BleakRunner._on_notify. unfold_monad. rewrite Hparse. cbn.
  destruct (raises o (trace w) (Update quat)) eqn:Hui; cbn.
  - split; [reflexivity|]. split; [reflexivity|].
    apply calls_since_app. reflexivity.
  - destruct (raises o (trace w ++ [Update quat]) _) eqn:Hosc; cbn;
      (split; [reflexivity|]); (split; [apply calls_since_app; cbn;
        rewrite <- app_assoc; reflexivity|]).
    + rewrite length_app. cbn. f_equal. f_equal. lia.
    + reflexivity.
Qed.

(** C4. When the scan succeeds, [get_nx_tracker] raises the not-found
    [RuntimeError] if no device carries the expected name; returns the
    address of the only match if there is one; and with two or more
    matches returns the address of the first of them in the order of the
    scan list, after printing the warning, which does not stop it. *)
Theorem get_nx_tracker_selection (w : World) :
  raises o (trace w) Discover = false ->
  let devices := scan_result o (trace w) in
  let nxs := List.filter (Tracker.name_is Tracker.DEVICE_NAME) devices in
  let run := Tracker.get_nx_tracker o w in
  match nxs with
  | [] => fst run = Raise (RuntimeError "No Nx Tracker 2 devices were found!")
          /\ stdout (snd run) = stdout w
  | [dev] => fst run = Ok (Env.address dev)
             /\ stdout (snd run) = stdout w
  | dev :: _ :: _ => fst run = Ok (Env.address dev)
                     /\ stdout (snd run) = stdout w ++ [multiple_warning]
  end
  /\ forall dev rest, nxs = dev :: rest ->
       exists before after,
         devices = before ++ dev :: after
         /\ forallb (fun d => negb (Tracker.name_is Tracker.DEVICE_NAME d))
              before = true
         /\ Env.name dev = Some Tracker.DEVICE_NAME.
Proof.
  intros Hscan devices nxs run. split.
  - subst run. unfold Tracker.get_nx_tracker, discover. unfold_monad.
    rewrite Hscan. cbn. fold devices. fold nxs.
    destruct nxs as [|dev [|dev' rest]]; cbn; auto.
  - intros dev rest Hnxs.
    destruct (filter_first _ _ _ _ Hnxs) as (before & after & E & Hb & Hd).
    exists before, after. repeat split; try assumption.
    unfold Tracker.name_is in Hd.
    destruct (Env.name dev) as [n|]; [|discriminate].
    apply String.eqb_eq in Hd. congruence.
Qed.

(** C9. [_batt_notify] decodes a payload of any length and hands the
    number to the battery callback as it is: the decode is the big-endian
    unsigned reading of the bytes, 0 for the empty payload and up to 65535
    for two bytes, it raises for no input, and nothing clamps the number
    to 0..100. Only the callback can raise. *)
Theorem batt_notify_never_rejects (w : World) (data : list byte) :
  let run := BleakRunner._batt_notify data o w in
  calls_since w (snd run) = [BattUpdate (int_from_bytes data)]
  /\ fst run = (if raises o (trace w) (BattUpdate (int_from_bytes data))
                then Raise (ExternalError (length (trace w)))
                else Ok tt)
  /\ 0 <= int_from_bytes data < 256 ^ Z.of_nat (length data)
  /\ (forall b, int_from_bytes (data ++ [b])
                = int_from_bytes data * 256 + byte_val b)
  /\ int_from_bytes [] = 0
  /\ int_from_bytes [xff; xff] = 65535
  /\ int_from_bytes [xc8] = 200.
Proof.
  intros run. subst run. unfold BleakRunner._batt_notify. unfold_monad.
  split; [|split; [|split; [|split]]].
  - destruct (raises o _ _); cbn; apply calls_since_app; reflexivity.
  - destruct (raises o _ _); reflexivity.
  - apply int_from_bytes_range.
  - intros b. apply int_from_bytes_snoc.
  - repeat split; reflexivity.
Qed.

End Session.

(* ===================================================================== *)
(** * The statements at concrete inputs                                   *)
(* ===================================================================== *)

Lemma start_stream_twice_once_witness :
  let first := NxTracker.start_stream 255 (calm [] []) (nx0, one_client) in
  NxTracker.start_stream 1 (calm [] []) (snd first) = (Ok tt, snd first)
  /\ trace (snd (snd first))
     = [Connect 0; WriteGattChar 0 Nx.START_UUID [xff];
        StartNotify 0 Nx.STREAM_UUID NxOnNotify].
Proof.
  pose proof (start_stream_twice_once (calm [] []) nx0 one_client 255 1
                eq_refl) as [Hsecond Hcalls].
  split; [exact Hsecond|]. exact (proj2 (Hcalls eq_refl)).
Defined.

Lemma start_stream_bad_rate_witness :
  fst (NxTracker.start_stream 256 (calm [] []) (nx0, one_client))
  = Raise OverflowError
  /\ clients (snd (snd (NxTracker.start_stream 256 (calm [] [])
                          (nx0, one_client))))
     = [mkClient true []].
Proof.
  apply (start_stream_bad_rate (calm [] []) nx0 one_client 256).
  - reflexivity.
  - right. reflexivity.
Defined.

(** C10, the claim as stated fails: a fresh tracker, no call raises, rate
    256. The [OverflowError] is raised after the connect, so the session
    is marked as running with its client connected. *)
Lemma bad_rate_leaves_connection_open :
  let run := NxTracker.start_stream 256 (calm [] []) (nx0, one_client) in
  fst run = Raise OverflowError
  /\ NxTracker._running (fst (snd run)) = true
  /\ trace (snd (snd run)) = [Connect 0]
  /\ clients (snd (snd run)) !! NxTracker.client nx0
     = Some (mkClient true []).
Proof. vm_compute. auto. Qed.

Lemma start_failure_keeps_running_witness :
  NxTracker._running
    (fst (snd (NxTracker.start_stream 255 (failing_at 0 [] [])
                 (nx0, one_client)))) = true.
Proof.
  apply (start_failure_keeps_running (failing_at 0 [] []) nx0
           (BleakRunner.init "") one_client 255 (ExternalError 0));
    reflexivity.
Defined.

(** C2, the claim as stated fails. Connect raises: the session stays
    marked as running. The subscription raises after a successful
    connect: the session stays marked as running and the client stays
    connected; no disconnect was issued. *)
Lemma start_failure_not_idle :
  let run :=
    NxTracker.start_stream 255 (failing_at 0 [] []) (nx0, one_client) in
  let run' :=
    NxTracker.start_stream 255 (failing_at 2 [] []) (nx0, one_client) in
  (fst run = Raise (ExternalError 0)
   /\ NxTracker._running (fst (snd run)) = true)
  /\ (fst run' = Raise (ExternalError 2)
      /\ trace (snd (snd run'))
         = [Connect 0; WriteGattChar 0 Nx.START_UUID [xff];
            StartNotify 0 Nx.STREAM_UUID NxOnNotify]
      /\ NxTracker._running (fst (snd run')) = true
      /\ clients (snd (snd run')) = [mkClient true []]).
Proof. vm_compute. auto. Qed.

Lemma on_notify_fan_out_witness :
  calls_since empty_world
    (snd (BleakRunner._on_notify scenario_packet (calm [] []) empty_world))
  = [Update scenario_quat; SendMessage "/quat" scenario_quat].
Proof.
  apply (on_notify_fan_out (calm [] []) empty_world scenario_packet
           scenario_quat).
  reflexivity.
Defined.

(** C3, the claim as stated fails: the Tk callback raises on the sample
    of the scenario packet; the OSC client is never called with it. *)
Lemma sink_failure_blocks_osc :
  let run :=
    BleakRunner._on_notify scenario_packet ui_sink_raises empty_world in
  Tracker.parse_packet scenario_packet = Ok scenario_quat
  /\ fst run = Raise (ExternalError 0)
  /\ trace (snd run) = [Update scenario_quat]
  /\ ~ In (SendMessage "/quat" scenario_quat) (trace (snd run)).
Proof.
  vm_compute. repeat split; try reflexivity.
  intros [H|[]]. discriminate H.
Qed.

Lemma get_nx_tracker_selection_witness :
  let run := Tracker.get_nx_tracker (calm scenario_scan []) empty_world in
  fst run = Ok "00:00:00:00:00:01"%string
  /\ stdout (snd run) = [multiple_warning].
Proof.
  apply (get_nx_tracker_selection (calm scenario_scan []) empty_world).
  reflexivity.
Defined.

(** C6, the failing input. A runner with no address finds one tracker,
    starts without any failure and is subscribed to the orientation and
    battery channels; [stop_stream] then writes the stop byte, stops the
    orientation notifications and disconnects, and the session is idle;
    no unsubscription from the battery channel is ever issued. *)
Theorem stop_stream_keeps_battery_subscription :
  let started :=
    snd (BleakRunner.start_stream one_tracker
           (BleakRunner.init "", empty_world)) in
  let stopped := snd (BleakRunner.stop_stream one_tracker started) in
  (BleakRunner._running (fst started) = true
   /\ futures (snd started) = [Ok tt]
   /\ clients (snd started)
      = [mkClient true [(Tracker.BATTERY_UUID, BattNotify);
                        (Tracker.STREAM_UUID, OnNotify)]])
  /\ (BleakRunner._running (fst stopped) = false
      /\ futures (snd stopped) = [Ok tt; Ok tt]
      /\ calls_since (snd started) (snd stopped)
         = [WriteGattChar 0 Tracker.START_UUID [x00];
            StopNotify 0 Tracker.STREAM_UUID;
            Disconnect 0]
      /\ ~ In (StopNotify 0 Tracker.BATTERY_UUID) (trace (snd stopped))).
Proof.
  vm_compute. repeat split; try reflexivity.
  intros H. repeat (destruct H as [H|H]; [discriminate H|]). exact H.
Qed.


(* ===================================================================== *)
(** * Further properties of the codec                                     *)
(* ===================================================================== *)

Section CodecExtras.

Lemma has_value_inj (f : float) (v v' : Z) :
  has_value f (v # 16384) = true -> has_value f (v' # 16384) = true -> v = v'.
Proof.
  unfold has_value. destruct (float_value f) as [q|]; [|discriminate].
  intros H H'. apply Qeq_bool_iff in H, H'.
  rewrite H in H'. unfold Qeq in H'. cbn in H'. lia.
Qed.

Lemma int16_le_inj (lo hi lo' hi' : byte) :
  int16_le lo hi = int16_le lo' hi' -> lo = lo' /\ hi = hi'.
Proof.
  intros H. pose proof (pack_h_int16_le lo hi) as P.
  rewrite H, pack_h_int16_le in P. injection P as -> ->. auto.
Qed.

(** X1. Two packets of ten bytes decode to the same quaternion exactly
    when they agree on their first eight bytes: the decoding loses nothing
    of the four fields it returns and never looks at the fifth. The same
    holds of the list-returning [parse_packet]. *)
Theorem parse_packet_same_iff (data data' : list byte) :
  length data = 10%nat -> length data' = 10%nat ->
  (Nx.parse_packet data = Nx.parse_packet data' <-> take 8 data = take 8 data')
  /\ (Tracker.parse_packet data = Tracker.parse_packet data'
      <-> take 8 data = take 8 data').
Proof.
  intros Hl Hl'.
  destruct (length_10_inv data Hl)
    as (b0 & b1 & b2 & b3 & b4 & b5 & b6 & b7 & b8 & b9 & ->).
  destruct (length_10_inv data' Hl')
    as (c0 & c1 & c2 & c3 & c4 & c5 & c6 & c7 & c8 & c9 & ->).
  cbn [take].
  destruct (nx_parse_packet_10 b0 b1 b2 b3 b4 b5 b6 b7 b8 b9)
    as (q & Hq & Hv & _ & Ht).
  destruct (nx_parse_packet_10 c0 c1 c2 c3 c4 c5 c6 c7 c8 c9)
    as (q' & Hq' & Hv' & _ & Ht').
  assert (Hinj : q = q' -> [b0; b1; b2; b3; b4; b5; b6; b7]
                           = [c0; c1; c2; c3; c4; c5; c6; c7]).
  { intros <-. unfold quat_is in Hv, Hv'.
    repeat (apply andb_prop in Hv as [Hv ?]).
    repeat (apply andb_prop in Hv' as [Hv' ?]).
    destruct (int16_le_inj b0 b1 c0 c1) as [-> ->];
      [eapply has_value_inj; eassumption|].
    destruct (int16_le_inj b2 b3 c2 c3) as [-> ->];
      [eapply has_value_inj; eassumption|].
    destruct (int16_le_inj b4 b5 c4 c5) as [-> ->];
      [eapply has_value_inj; eassumption|].
    destruct (int16_le_inj b6 b7 c6 c7) as [-> ->];
      [eapply has_value_inj; eassumption|].
    reflexivity. }
  split; split.
  - rewrite Hq, Hq'. intros [= E]. auto.
  - intros [= -> -> -> -> -> -> -> ->]. reflexivity.
  - rewrite Ht, Ht'. intros [= E0 E1 E2 E3]. apply Hinj.
    destruct q, q'; cbn in *; congruence.
  - intros [= -> -> -> -> -> -> -> ->]. reflexivity.
Qed.

End CodecExtras.

(* ===================================================================== *)
(** * Further properties of the session                                   *)
(* ===================================================================== *)

Section SessionExtras.

Variable o : Oracle.

(** X2. The handler of [NxTracker]: a payload whose length is not 10
    raises [struct.error] before anything is called and leaves the world
    as it is; a payload of 10 bytes reaches [on_update] exactly once, with
    the decoded quaternion, and the handler raises only if the callback
    does. *)
Theorem nx_on_notify_delivery (w : World) (data : list byte) :
  let run := NxTracker._on_notify data o w in
  (length data <> 10%nat -> run = (Raise StructError, w))
  /\ (length data = 10%nat ->
      exists q, Nx.parse_packet data = Ok q
                /\ calls_since w (snd run) = [OnUpdate q]
                /\ clients (snd run) = clients w
                /\ fst run = if raises o (trace w) (OnUpdate q)
                             then Raise (ExternalError (length (trace w)))
                             else Ok tt).
Proof.
  intros run. subst run. split; intros Hlen.
  - unfold NxTracker._on_notify. unfold_monad.
    rewrite (proj1 (parse_packet_wrong_length data Hlen)). reflexivity.
  - destruct (length_10_inv data Hlen)
      as (b0 & b1 & b2 & b3 & b4 & b5 & b6 & b7 & b8 & b9 & ->).
    destruct (nx_parse_packet_10 b0 b1 b2 b3 b4 b5 b6 b7 b8 b9)
      as (q & Hq & _).
    exists q. split; [exact Hq|].
    unfold NxTracker._on_notify. unfold_monad. rewrite Hq.
    destruct (raises o (trace w) (OnUpdate q)); cbn;
      (split; [apply calls_since_app; reflexivity|]); auto.
Qed.

(** X3. The handler of [BleakRunner], in both variants: a payload whose
    length is not 10 raises [struct.error]; neither the Tk callback nor the
    OSC client is called. *)
Theorem on_notify_malformed (w : World) (data : list byte) :
  length data <> 10%nat ->
  BleakRunner._on_notify data o w = (Raise StructError, w)
  /\ Pynx._on_notify data o w = (Raise StructError, w).
Proof.
  intros Hlen. unfold BleakRunner._on_notify, Pynx._on_notify. unfold_monad.
  change Pynx.parse_packet with Tracker.parse_packet.
  rewrite (proj2 (parse_packet_wrong_length data Hlen)). split; reflexivity.
Qed.




(** X5. [start_stream] followed by [stop_stream], both returning, brings
    the [NxTracker] object back to the state it started in, makes exactly
    six calls (connect, rate write, subscribe, stop write, unsubscribe,
    disconnect) and leaves its client disconnected without subscription;
    no other client is touched. *)
Theorem nx_start_stop_round_trip
    (self : NxTracker.t) (w : World) (rate : Z) :
  NxTracker._running self = false ->
  let c := NxTracker.client self in
  let started := NxTracker.start_stream rate o (self, w) in
  let stopped := NxTracker.stop_stream o (snd started) in
  fst started = Ok tt -> fst stopped = Ok tt ->
  fst (snd stopped) = self
  /\ calls_since w (snd (snd stopped))
     = [Connect c; WriteGattChar c Nx.START_UUID [byte_of_Z rate];
        StartNotify c Nx.STREAM_UUID NxOnNotify;
        WriteGattChar c Nx.START_UUID [x00]; StopNotify c Nx.STREAM_UUID;
        Disconnect c]
  /\ clients (snd (snd stopped)) !! c
     = (fun _ => mkClient false []) <$> clients w !! c
  /\ (forall i, i <> c ->
        clients (snd (snd stopped)) !! i = clients w !! i).
Proof.
  intros Hidle c started stopped. subst stopped started c.
  destruct self as [running c]. cbn in Hidle. subst running.
  destruct (to_bytes_1 rate) as [Hin Hout].
  unfold NxTracker.stop_stream, NxTracker.start_stream, connect,
    write_gatt_char, start_notify, stop_notify, disconnect.
  unfold_monad. cbn.
  step_oracle; [discriminate|].
  destruct (Z_le_dec 0 rate) as [H0|H0];
    [|rewrite Hout by lia; cbn; discriminate].
  destruct (Z_le_dec rate 255) as [H1|H1];
    [|rewrite Hout by lia; cbn; discriminate].
  rewrite Hin by lia. cbn.
  repeat (step_oracle; [discriminate|]).
  intros _ _. split; [reflexivity|].
  split; [apply calls_since_app; cbn; rewrite <- !app_assoc; reflexivity|].
  split.
  - rewrite !list_lookup_alter_eq.
    destruct (clients w !! c); reflexivity.
  - intros i Hi. rewrite !list_lookup_alter_ne by congruence. reflexivity.
Qed.

(** X6. After [stop_stream], whatever its outcome, another [stop_stream]
    makes no call and changes nothing, in [NxTracker] and in both
    variants of [BleakRunner]. *)
Theorem stop_stream_twice (nx : NxTracker.t) (runner : BleakRunner.t)
    (old : Pynx.t) (w : World) :
  let s1 := snd (NxTracker.stop_stream o (nx, w)) in
  let s2 := snd (BleakRunner.stop_stream o (runner, w)) in
  let s3 := snd (Pynx.stop_stream o (old, w)) in
  NxTracker.stop_stream o s1 = (Ok tt, s1)
  /\ BleakRunner.stop_stream o s2 = (Ok tt, s2)
  /\ Pynx.stop_stream o s3 = (Ok tt, s3).
Proof.
  intros s1 s2 s3. split; [|split].
  - pose proof (nx_stop_leaves_idle o nx w) as H. fold s1 in H.
    destruct s1 as [self1 w1]. apply nx_stop_idle. exact H.
  - pose proof (runner_stop_leaves_idle o runner w) as H. fold s2 in H.
    destruct s2 as [self1 w1]. apply runner_stop_idle. exact H.
  - assert (H : Pynx._running (fst s3) = false).
    { subst s3.
      unfold Pynx.stop_stream, Pynx._stop, Pynx.get_client,
        write_gatt_char, stop_notify, disconnect.
      unfold_monad.
      destruct old as [addr [|] [c|]]; cbn; try reflexivity.
      repeat (step_oracle; [reflexivity|]). reflexivity. }
    destruct s3 as [self1 w1]. cbn in H.
    unfold Pynx.stop_stream. unfold_monad. rewrite H. reflexivity.
Qed.

(** X7. [NxTracker.shutdown] always leaves the session idle. When
    [stop_stream] raises, [shutdown] raises the same error and its own
    disconnect is skipped; otherwise it issues one more disconnect after
    whatever [stop_stream] did, so shutting a running session down
    disconnects twice and shutting an idle one down disconnects once. *)
Theorem nx_shutdown_steps (self : NxTracker.t) (w : World) :
  let c := NxTracker.client self in
  let run := NxTracker.shutdown o (self, w) in
  let stop := NxTracker.stop_stream o (self, w) in
  NxTracker._running (fst (snd run)) = false
  /\ (forall e, fst stop = Raise e -> run = (Raise e, snd stop))
  /\ (fst stop = Ok tt ->
      calls_since w (snd (snd run))
      = (if NxTracker._running self
         then [WriteGattChar c Nx.START_UUID [x00];
               StopNotify c Nx.STREAM_UUID; Disconnect c]
         else []) ++ [Disconnect c]).
Proof.
  intros c run stop. subst run stop c.
  unfold NxTracker.shutdown, NxTracker.stop_stream, write_gatt_char,
    stop_notify, disconnect.
  unfold_monad.
  destruct self as [[|] c]; cbn.
  - step_oracle.
    { split; [reflexivity|]. split; [|discriminate].
      intros e [= <-]. reflexivity. }
    step_oracle.
    { split; [reflexivity|]. split; [|discriminate].
      intros e [= <-]. reflexivity. }
    step_oracle.
    { split; [reflexivity|]. split; [|discriminate].
      intros e [= <-]. reflexivity. }
    step_oracle; (split; [reflexivity|]); (split; [discriminate|]);
      intros _; apply calls_since_app; cbn; rewrite <- !app_assoc;
      reflexivity.
  - step_oracle; (split; [reflexivity|]); (split; [discriminate|]);
      intros _; apply calls_since_app; reflexivity.
Qed.

Lemma alter_snoc {A} (f : A -> A) (l : list A) (a : A) :
  alter f (length l) (l ++ [a]) = l ++ [f a].
Proof.
  induction l as [|b l IH]; [reflexivity|]. cbn. f_equal. exact IH.
Qed.

(** X8. [BleakRunner.reset] returns normally whatever happens, leaves
    the runner object and every client as they are, and hands one
    coroutine to the loop. With no client yet (no [start_stream] has
    created one) the coroutine makes no call and ends in
    [AttributeError]; otherwise it writes 32 00 00 00 00 and then
    32 00 00 00 01 to the reset characteristic, the second only if the
    first did not raise. *)
Theorem reset_steps (self : BleakRunner.t) (w : World) :
  let run := BleakRunner.reset o (self, w) in
  let w' := snd (snd run) in
  fst run = Ok tt
  /\ fst (snd run) = self
  /\ clients w' = clients w
  /\ match BleakRunner.client self with
     | None =>
         calls_since w w' = []
         /\ futures w' = futures w ++ [Raise AttributeError]
     | Some c =>
         let first :=
           WriteGattChar c Tracker.RESET [x32; x00; x00; x00; x00] in
         let second :=
           WriteGattChar c Tracker.RESET [x32; x00; x00; x00; x01] in
         if raises o (trace w) first
         then calls_since w w' = [first]
              /\ futures w'
                 = futures w ++ [Raise (ExternalError (length (trace w)))]
         else calls_since w w' = [first; second]
              /\ futures w'
                 = futures w
                   ++ [if raises o (trace w ++ [first]) second
                       then Raise (ExternalError (S (length (trace w))))
                       else Ok tt]
     end.
Proof.
  intros run w'. subst w' run.
  unfold BleakRunner.reset, BleakRunner._reset, BleakRunner.get_client,
    write_gatt_char.
  unfold_monad.
  destruct self as [addr running [c|]]; cbn.
  - step_oracle.
    + repeat split. apply calls_since_app. reflexivity.
    + step_oracle; rewrite ?length_app; cbn [length];
        rewrite ?Nat.add_1_r; repeat split;
        apply calls_since_app; cbn; rewrite <- app_assoc; reflexivity.
  - repeat split. unfold calls_since. cbn. apply drop_all.
Qed.


Ltac go_unfold :=
  unfold BleakRunner.start_stream, BleakRunner._go, BleakRunner.get_client,
    Tracker.get_nx_tracker, discover, BleakClient, connect, write_gatt_char,
    start_notify, read_gatt_char, print;
  unfold_monad.

(** X9. When the coroutine of [BleakRunner.start_stream] ends without
    an error, it has scanned only if the runner had no address, created a
    new client, and on it connected, written ff, subscribed to the
    orientation and then the battery channel, read the battery
    characteristic and passed the value read, decoded, to the battery
    callback; the new client is connected with both subscriptions. *)
Theorem runner_start_success (self : BleakRunner.t) (w : World) :
  BleakRunner._running self = false ->
  fst (BleakRunner._go o (BleakRunner.set_running true self, w)) = Ok tt ->
  let run := BleakRunner.start_stream o (self, w) in
  let self' := fst (snd run) in
  let w' := snd (snd run) in
  let c := length (clients w) in
  let scan := if String.eqb (BleakRunner.address self) ""
              then [Discover] else [] in
  let setup := scan ++ [Connect c;
                 WriteGattChar c Tracker.START_UUID [xff];
                 StartNotify c Tracker.STREAM_UUID OnNotify;
                 StartNotify c Tracker.BATTERY_UUID BattNotify] in
  calls_since w w'
  = setup ++ [ReadGattChar c Tracker.BATTERY_UUID;
              BattUpdate (int_from_bytes (gatt_value o (trace w ++ setup)))]
  /\ BleakRunner.client self' = Some c
  /\ BleakRunner._running self' = true
  /\ clients w'
     = clients w ++ [mkClient true [(Tracker.BATTERY_UUID, BattNotify);
                                    (Tracker.STREAM_UUID, OnNotify)]]
  /\ futures w' = futures w ++ [Ok tt].
Proof.
  intros Hidle. destruct self as [addr running cl]. cbn in Hidle.
  subst running. go_unfold. cbn.
  destruct (String.eqb addr "") eqn:Haddr; cbn.
  - step_oracle; [discriminate|].
    destruct (List.filter _ _) as [|dev [|dev' rest]]; cbn;
      [discriminate| |];
      repeat (step_oracle; [discriminate|]);
      intros _; rewrite !alter_snoc; cbn;
      rewrite <- ?app_assoc; cbn;
      (split; [apply calls_since_app; cbn; rewrite <- ?app_assoc;
               reflexivity|]);
      repeat split.
  - repeat (step_oracle; [discriminate|]).
    intros _. rewrite !alter_snoc. cbn. rewrite <- ?app_assoc. cbn.
    split; [apply calls_since_app; cbn; rewrite <- ?app_assoc;
            reflexivity|].
    repeat split.
Qed.


(** X11. A runner without address and without client whose device
    lookup fails: [start_stream] only scans, creates no client and leaves
    the runner marked as running; the following [stop_stream] makes no
    call at all, its coroutine ends in [AttributeError], and the runner
    is back in its initial state. *)
Theorem start_without_device_then_stop
    (self : BleakRunner.t) (w : World) (e : Exn) :
  BleakRunner._running self = false ->
  BleakRunner.address self = ""%string ->
  BleakRunner.client self = None ->
  fst (Tracker.get_nx_tracker o w) = Raise e ->
  let started := snd (BleakRunner.start_stream o (self, w)) in
  let stopped := snd (BleakRunner.stop_stream o started) in
  fst started = BleakRunner.set_running true self
  /\ calls_since w (snd started) = [Discover]
  /\ clients (snd started) = clients w
  /\ fst stopped = self
  /\ trace (snd stopped) = trace (snd started)
  /\ futures (snd stopped) = futures w ++ [Raise e; Raise AttributeError].
Proof.
  destruct self as [addr running cl]. cbn. intros -> -> ->.
  unfold BleakRunner.stop_stream, BleakRunner._stop. go_unfold. cbn.
  step_oracle.
  - intros [= <-]. cbn. rewrite <- app_assoc.
    repeat split. apply calls_since_app. reflexivity.
  - destruct (List.filter _ _) as [|dev [|dev' rest]]; cbn;
      [|discriminate|discriminate].
    intros [= <-]. cbn. rewrite <- app_assoc.
    repeat split. apply calls_since_app. reflexivity.
Qed.



Lemma runner_reset_self (self : BleakRunner.t) (w : World) :
  fst (BleakRunner.reset o (self, w)) = Ok tt
  /\ fst (snd (BleakRunner.reset o (self, w))) = self.
Proof.
  unfold BleakRunner.reset, BleakRunner._reset, BleakRunner.get_client,
    write_gatt_char.
  unfold_monad.
  destruct self as [addr running [c|]]; cbn; [|auto].
  step_oracle; [auto|]. step_oracle; auto.
Qed.

(** X13. [Window.toggle_stream] keeps the window consistent with its
    runner: if [_streaming] agrees with the runner's [_running] and the
    button offers the opposite action, this still holds after a click,
    which never raises and flips [_streaming]; [Window.reset] changes
    nothing of the window. *)
Theorem toggle_stream_keeps_window_ok (win : Window.t) (w : World) :
  window_ok win ->
  let run := Window.toggle_stream o (win, w) in
  let win' := fst (snd run) in
  fst run = Ok tt
  /\ window_ok win'
  /\ Window._streaming win' = negb (Window._streaming win)
  /\ fst (snd (Window.reset o (win, w))) = win.
Proof.
  intros [Hflag Hbtn] run win'. subst win' run.
  destruct win as [runner streaming text]. cbn in Hflag, Hbtn.
  assert (Hreset : fst (snd (Window.reset o
                      (Window.mkWindow runner streaming text, w)))
                   = Window.mkWindow runner streaming text).
  { unfold Window.reset, Window.on_ble. cbn [Window.ble].
    pose proof (runner_reset_self runner w) as (_ & Hreset).
    destruct (BleakRunner.reset o (runner, w)) as [r0 [b0 w0]].
    cbn in *. subst b0. reflexivity. }
  unfold Window.toggle_stream, Window.on_ble.
  unfold bind, get_self, modify_self. cbn [Window._streaming negb].
  destruct streaming; cbn [negb Window.ble].
  - pose proof (runner_stop_leaves_idle o runner w) as Hstop.
    destruct (BleakRunner.stop_stream o (runner, w)) as [r [b w1]] eqn:E.
    assert (Hr : r = Ok tt).
    { revert E. unfold BleakRunner.stop_stream. unfold_monad.
      rewrite <- Hflag.
      cbn. destruct (BleakRunner._stop o _) as [? [? ?]]. congruence. }
    subst r. cbn in *. repeat split; auto.
  - rewrite (runner_start_idle o runner w (eq_sym Hflag)).
    pose proof (runner_step_go o (BleakRunner.set_running true runner, w))
      as [Hkeep _].
    destruct (BleakRunner._go o _) as [r [b w1]].
    cbn in *. repeat split; auto.
Qed.



(** X15. A [BleakRunner] that has an address keeps it and never scans;
    one without address takes the address [get_nx_tracker] returns and
    keeps it for later starts; if the lookup raises, only the running
    flag of the runner has changed. *)
Theorem runner_address_cached (self : BleakRunner.t) (w : World) :
  BleakRunner._running self = false ->
  let started := snd (BleakRunner.start_stream o (self, w)) in
  (BleakRunner.address self <> ""%string ->
     BleakRunner.address (fst started) = BleakRunner.address self
     /\ ~ In Discover (calls_since w (snd started)))
  /\ (BleakRunner.address self = ""%string ->
      match fst (Tracker.get_nx_tracker o w) with
      | Ok a => BleakRunner.address (fst started) = a
      | Raise _ => fst started = BleakRunner.set_running true self
      end).
Proof.
  intros Hidle. destruct self as [addr running cl]. cbn in Hidle.
  subst running.
  unfold BleakRunner.start_stream, BleakRunner._go, BleakRunner.get_client,
    Tracker.get_nx_tracker, discover, BleakClient, connect, write_gatt_char,
    start_notify, read_gatt_char, print.
  unfold_monad. cbn. split.
  - intros Hne. apply String.eqb_neq in Hne. rewrite Hne. cbn.
    repeat step_oracle;
      (split; [reflexivity|]);
      erewrite calls_since_app by (cbn; rewrite <- ?app_assoc; reflexivity);
      cbn; intros H; repeat (destruct H as [H|H]; [discriminate H|]);
      exact H.
  - intros ->. cbn.
    step_oracle; [reflexivity|].
    destruct (List.filter _ _) as [|dev [|dev' rest]]; cbn;
      [reflexivity| |]; repeat step_oracle; reflexivity.
Qed.

End SessionExtras.

(* ===================================================================== *)
(** * The further properties at concrete inputs                           *)
(* ===================================================================== *)

Lemma parse_packet_same_iff_witness :
  Nx.parse_packet scenario_packet
  = Nx.parse_packet (take 8 scenario_packet ++ [xff; x7f]).
Proof.
  apply (parse_packet_same_iff scenario_packet
           (take 8 scenario_packet ++ [xff; x7f])); reflexivity.
Defined.

Lemma runner_address_cached_witness :
  BleakRunner.address
    (fst (snd (BleakRunner.start_stream one_tracker
                 (BleakRunner.init "", empty_world))))
  = "00:00:00:00:00:01"%string.
Proof.
  apply (proj2 (runner_address_cached one_tracker (BleakRunner.init "")
                  empty_world eq_refl)).
  reflexivity.
Defined.

Lemma nx_on_notify_delivery_witness :
  NxTracker._on_notify (take 9 scenario_packet) (calm [] []) empty_world
  = (Raise StructError, empty_world).
Proof.
  apply (proj1 (nx_on_notify_delivery (calm [] []) empty_world
                  (take 9 scenario_packet))).
  vm_compute. discriminate.
Defined.

Lemma on_notify_malformed_witness :
  BleakRunner._on_notify (scenario_packet ++ [x00]) (calm [] []) empty_world
  = (Raise StructError, empty_world)
  /\ Pynx._on_notify (scenario_packet ++ [x00]) (calm [] []) empty_world
     = (Raise StructError, empty_world).
Proof.
  apply (on_notify_malformed (calm [] []) empty_world
           (scenario_packet ++ [x00])).
  vm_compute. discriminate.
Defined.


Lemma nx_start_stop_round_trip_witness :
  fst (snd (NxTracker.stop_stream (calm [] [])
              (snd (NxTracker.start_stream 1 (calm [] [])
                      (nx0, one_client)))))
  = nx0.
Proof.
  apply (nx_start_stop_round_trip (calm [] []) nx0 one_client 1);
    reflexivity.
Defined.

Lemma nx_shutdown_steps_witness :
  calls_since one_client_streaming
    (snd (snd (NxTracker.shutdown (calm [] [])
                 (nx_streaming, one_client_streaming))))
  = [WriteGattChar 0 Nx.START_UUID [x00]; StopNotify 0 Nx.STREAM_UUID;
     Disconnect 0; Disconnect 0].
Proof.
  apply (nx_shutdown_steps (calm [] []) nx_streaming one_client_streaming).
  reflexivity.
Defined.

Lemma runner_start_success_witness :
  clients (snd (snd (BleakRunner.start_stream one_tracker
                       (BleakRunner.init "", empty_world))))
  = [mkClient true [(Tracker.BATTERY_UUID, BattNotify);
                    (Tracker.STREAM_UUID, OnNotify)]].
Proof.
  apply (runner_start_success one_tracker (BleakRunner.init "") empty_world);
    reflexivity.
Defined.

Lemma start_without_device_then_stop_witness :
  fst (snd (BleakRunner.stop_stream (calm [] [])
              (snd (BleakRunner.start_stream (calm [] [])
                      (BleakRunner.init "", empty_world)))))
  = BleakRunner.init "".
Proof.
  apply (start_without_device_then_stop (calm [] []) (BleakRunner.init "")
           empty_world
           (RuntimeError "No Nx Tracker 2 devices were found!"));
    reflexivity.
Defined.

Lemma toggle_stream_keeps_window_ok_witness :
  window_ok (fst (snd (Window.toggle_stream one_tracker
                         (Window.init "", empty_world)))).
Proof.
  apply (toggle_stream_keeps_window_ok one_tracker (Window.init "")
           empty_world).
  split; reflexivity.
Defined.

